(** * Breast-diagnostic service planning: the access evaluation engine

    A shallow embedding of [analysis/travel.py], [analysis/demand.py] and the
    numeric part of [app.py] (baseline comparison and hospital summary).

    Numbers: numpy's float64 values are read as real numbers, so rounding,
    NaN and the infinities are outside this model.  Arrays are numpy arrays
    of one or two dimensions, the ranks the program builds and documents.
    A raised exception is a [Raise] result; the [logging.error] call that
    precedes each [raise] leaves no trace in the returned value and is left
    out. *)

From Stdlib Require Import Ascii String Reals Lra Lia Arith Bool List Permutation ZArith.
Import ListNotations.
Open Scope R_scope.

(** ** Python exceptions and results *)

Inductive exn : Type :=
| ValueError (msg : string)
| TypeError (msg : string)
| IndexError (msg : string)
| AxisError (msg : string).

Inductive result (A : Type) : Type :=
| Ok (a : A)
| Raise (e : exn).

Arguments Ok {A} a.
Arguments Raise {A} e.

Definition bind {A B : Type} (c : result A) (k : A -> result B) : result B :=
  match c with
  | Ok a => k a
  | Raise e => Raise e
  end.

Notation "x <- c ;; k" := (bind c (fun x => k))
  (at level 61, c at next level, right associativity).

(** ** A model of the numpy operations the program uses *)

Module Numpy.

(** An array of rank 1, shape [(len v,)], or of rank 2, shape
    [(len rows, ncols)]; the column count is kept apart because an array
    may have no row. *)
Inductive ndarray : Type :=
| Array1 (v : list R)
| Array2 (ncols : nat) (rows : list (list R)).

Definition ndim (a : ndarray) : nat :=
  match a with
  | Array1 _ => 1
  | Array2 _ _ => 2
  end.

Definition shape (a : ndarray) : list nat :=
  match a with
  | Array1 v => [length v]
  | Array2 m rows => [length rows; m]
  end.

(** [a[i, j]] on a rank-2 array. *)
Definition entry (a : ndarray) (i j : nat) : R :=
  match a with
  | Array1 _ => 0
  | Array2 _ rows => nth j (nth i rows []) 0
  end.

(** [a[i]] on a rank-1 array. *)
Definition item (a : ndarray) (i : nat) : R :=
  match a with
  | Array1 v => nth i v 0
  | Array2 _ _ => 0
  end.

Definition Rleb (x y : R) : bool := if Rle_dec x y then true else false.
Definition Rltb (x y : R) : bool := if Rlt_dec x y then true else false.

(** Elementwise application of a scalar function ([np.sin(a)], [a / 2.0],
    [a ** 2], ...). *)
Definition np_map (f : R -> R) (a : ndarray) : ndarray :=
  match a with
  | Array1 v => Array1 (map f v)
  | Array2 m rows => Array2 m (map (map f) rows)
  end.

Fixpoint zipWith {A B C : Type} (f : A -> B -> C) (la : list A) (lb : list B) : list C :=
  match la, lb with
  | a :: la', b :: lb' => f a b :: zipWith f la' lb'
  | _, _ => []
  end.

(** Broadcasting of one axis: equal lengths, or one of them is 1. *)
Definition broadcast_dim (n m : nat) : option nat :=
  if Nat.eqb n m then Some n
  else if Nat.eqb n 1 then Some m
  else if Nat.eqb m 1 then Some n
  else None.

(** Pairing along one axis under broadcasting: a length-1 operand is
    repeated along the other. *)
Definition bzip {A B C : Type} (f : A -> B -> C) (la : list A) (lb : list B) : list C :=
  if Nat.eqb (length la) (length lb) then zipWith f la lb
  else match la, lb with
       | [a], _ => map (f a) lb
       | _, [b] => map (fun a => f a b) la
       | _, _ => []
       end.

(** A rank-1 array of length n enters a rank-2 operation as shape (1, n). *)
Definition as2d (a : ndarray) : nat * list (list R) :=
  match a with
  | Array1 v => (length v, [v])
  | Array2 m rows => (m, rows)
  end.

Definition broadcast_error : exn :=
  ValueError "operands could not be broadcast together".

(** Elementwise binary operation of two arrays, with numpy's broadcasting. *)
Definition np_binop (f : R -> R -> R) (a b : ndarray) : result ndarray :=
  match a, b with
  | Array1 u, Array1 v =>
      match broadcast_dim (length u) (length v) with
      | Some _ => Ok (Array1 (bzip f u v))
      | None => Raise broadcast_error
      end
  | _, _ =>
      let '(m1, r1) := as2d a in
      let '(m2, r2) := as2d b in
      match broadcast_dim (length r1) (length r2), broadcast_dim m1 m2 with
      | Some _, Some m => Ok (Array2 m (bzip (bzip f) r1 r2))
      | _, _ => Raise broadcast_error
      end
  end.

Definition np_add : ndarray -> ndarray -> result ndarray := np_binop Rplus.
Definition np_sub : ndarray -> ndarray -> result ndarray := np_binop Rminus.
Definition np_mul : ndarray -> ndarray -> result ndarray := np_binop Rmult.

(** [np.radians]: degrees to radians. *)
Definition np_radians : ndarray -> ndarray := np_map (fun x => x * (PI / 180)).
Definition np_sin : ndarray -> ndarray := np_map sin.
Definition np_cos : ndarray -> ndarray := np_map cos.
Definition np_sqrt : ndarray -> ndarray := np_map sqrt.
Definition np_arcsin : ndarray -> ndarray := np_map asin.

(** [a[:, k]], the rank-1 array of column [k]. *)
Definition column (a : ndarray) (k : nat) : result (list R) :=
  match a with
  | Array1 _ => Raise (IndexError "too many indices for array")
  | Array2 m rows =>
      if Nat.ltb k m then Ok (map (fun r => nth k r 0) rows)
      else Raise (IndexError "index is out of bounds for axis 1")
  end.

(** [v[:, None]]: a rank-1 array as one column, shape (len v, 1). *)
Definition as_column (v : list R) : ndarray := Array2 1 (map (fun x => [x]) v).

(** [v[None, :]]: a rank-1 array as one row, shape (1, len v). *)
Definition as_row (v : list R) : ndarray := Array2 (length v) [v].

(** The minimum of a non-empty sequence, left to right. *)
Definition row_min (r : list R) : R :=
  match r with
  | [] => 0
  | x :: xs => fold_left Rmin xs x
  end.

(** [np.min(a, axis=1)] *)
Definition np_min_axis1 (a : ndarray) : result ndarray :=
  match a with
  | Array1 _ => Raise (AxisError "axis 1 is out of bounds for array of dimension 1")
  | Array2 m rows =>
      if Nat.eqb m 0
      then Raise (ValueError "zero-size array to reduction operation minimum which has no identity")
      else Ok (Array1 (map row_min rows))
  end.

(** Position of the first occurrence of the minimum: [best] at index [bi]
    is the minimum so far, [i] the index of the head of [r]. *)
Fixpoint argmin_from (best : R) (bi i : nat) (r : list R) : nat :=
  match r with
  | [] => bi
  | x :: xs =>
      if Rltb x best then argmin_from x i (S i) xs
      else argmin_from best bi (S i) xs
  end.

Definition row_argmin (r : list R) : nat :=
  match r with
  | [] => 0%nat
  | x :: xs => argmin_from x 0 1 xs
  end.

(** [np.argmin(a, axis=1)], an array of column indices. *)
Definition np_argmin_axis1 (a : ndarray) : result (list nat) :=
  match a with
  | Array1 _ => Raise (AxisError "axis 1 is out of bounds for array of dimension 1")
  | Array2 m rows =>
      if Nat.eqb m 0
      then Raise (ValueError "attempt to get argmin of an empty sequence")
      else Ok (map row_argmin rows)
  end.

Definition sum_list (l : list R) : R := fold_right Rplus 0 l.

(** [np.sum(a)], [a.sum()]: the sum of all elements. *)
Definition np_sum (a : ndarray) : R :=
  match a with
  | Array1 v => sum_list v
  | Array2 _ rows => sum_list (map sum_list rows)
  end.

End Numpy.

Import Numpy.

(** ** analysis/travel.py *)

Module Travel.

Definition R_miles : R := 3959.

Definition haversine_np (lat1 lon1 lat2 lon2 : ndarray) : result ndarray :=
  let lat1 := np_radians lat1 in
  let lon1 := np_radians lon1 in
  let lat2 := np_radians lat2 in
  let lon2 := np_radians lon2 in
  dlon <- np_sub lon2 lon1 ;;
  dlat <- np_sub lat2 lat1 ;;
  let s_lat := np_map (fun x => x ^ 2) (np_sin (np_map (fun x => x / 2) dlat)) in
  let s_lon := np_map (fun x => x ^ 2) (np_sin (np_map (fun x => x / 2) dlon)) in
  cc <- np_mul (np_cos lat1) (np_cos lat2) ;;
  ccs <- np_mul cc s_lon ;;
  a <- np_add s_lat ccs ;;
  let c := np_map (fun x => 2 * x) (np_arcsin (np_sqrt a)) in
  Ok (np_map (fun x => R_miles * x) c).

Definition compute_distance_time (gp_coords hosp_coords : ndarray)
    (car_speed_mph pt_speed_mph : R) : result (ndarray * ndarray * ndarray) :=
  if negb (Nat.eqb (ndim gp_coords) 2) || negb (Nat.eqb (nth 1 (shape gp_coords) 0%nat) 2)
  then Raise (ValueError "gp_coords must be (n_gps, 2) array")
  else if negb (Nat.eqb (ndim hosp_coords) 2) || negb (Nat.eqb (nth 1 (shape hosp_coords) 0%nat) 2)
  then Raise (ValueError "hosp_coords must be (n_hospitals, 2) array")
  else if Rleb car_speed_mph 0 || Rleb pt_speed_mph 0
  then Raise (ValueError "Speeds must be positive")
  else
    gp_lat <- column gp_coords 0 ;;
    gp_lon <- column gp_coords 1 ;;
    hosp_lat <- column hosp_coords 0 ;;
    hosp_lon <- column hosp_coords 1 ;;
    let lat_g := as_column gp_lat in
    let lon_g := as_column gp_lon in
    let lat_h := as_row hosp_lat in
    let lon_h := as_row hosp_lon in
    dist_miles <- haversine_np lat_g lon_g lat_h lon_h ;;
    let car_time_min := np_map (fun d => d / car_speed_mph * 60) dist_miles in
    let pt_time_min := np_map (fun d => d / pt_speed_mph * 60) dist_miles in
    Ok (dist_miles, car_time_min, pt_time_min).

End Travel.

Import Travel.

(** ** analysis/demand.py *)

Module Demand.

(** A Python value handed to [nearest_metrics]: a numpy array or
    something else. *)
Inductive pyobj : Type :=
| PyNdarray (a : ndarray)
| PyList (rows : list (list R))
| PyFloat (x : R)
| PyNone.

Definition isinstance_ndarray (o : pyobj) : bool :=
  match o with
  | PyNdarray _ => true
  | _ => false
  end.

(** The tuple [nearest_metrics] returns, in the order of its [return]. *)
Record metrics : Type := Metrics {
  nearest_dist : ndarray;
  nearest_car_time : ndarray;
  nearest_pt_time : ndarray;
  fuel_cost : ndarray;
  co2 : ndarray;
  weighted_car : ndarray;
  weighted_pt : ndarray;
  weighted_access_score : ndarray
}.

Definition nearest_metrics
    (dist_miles car_time_min pt_time_min monthly_referrals : pyobj)
    (car_speed_mph fuel_cost_per_mile co2_per_mile : R) : result metrics :=
  match dist_miles, car_time_min, pt_time_min, monthly_referrals with
  | PyNdarray dist_miles, PyNdarray car_time_min, PyNdarray pt_time_min,
    PyNdarray monthly_referrals =>
      nearest_dist <- np_min_axis1 dist_miles ;;
      nearest_car_time <- np_min_axis1 car_time_min ;;
      nearest_pt_time <- np_min_axis1 pt_time_min ;;
      let miles := np_map (fun t => t / 60 * car_speed_mph) nearest_car_time in
      let fuel_cost := np_map (fun d => d * fuel_cost_per_mile) miles in
      let co2 := np_map (fun d => d * co2_per_mile) miles in
      weighted_car <- np_mul monthly_referrals nearest_car_time ;;
      weighted_pt <- np_mul monthly_referrals nearest_pt_time ;;
      weighted_access_score <- np_add weighted_car weighted_pt ;;
      Ok (Metrics nearest_dist nearest_car_time nearest_pt_time fuel_cost co2
                  weighted_car weighted_pt weighted_access_score)
  | _, _, _, _ => Raise (TypeError "Inputs must be numpy arrays")
  end.

End Demand.

Import Demand.

(** ** app.py: baseline comparison and hospital summary *)

Module App.

(** A row of the uploaded table after geocoding. *)
Record place : Type := Place {
  Description : string;
  result_latitude : R;
  result_longitude : R;
  Referrals : R
}.

Definition dataframe : Type := list place.

(** [df[["result_latitude", "result_longitude"]].to_numpy()] *)
Definition coords (df : dataframe) : ndarray :=
  Array2 2 (map (fun p => [result_latitude p; result_longitude p]) df).

(** [gp_df["Referrals"].to_numpy()] *)
Definition referrals (gp_df : dataframe) : ndarray :=
  Array1 (map Referrals gp_df).

(** Naive baseline: all patients go to the first selected hospital. *)
Definition baseline_car (car_time : ndarray) : result ndarray :=
  b <- column car_time 0 ;; Ok (Array1 b).

Definition baseline_pt (pt_time : ndarray) : result ndarray :=
  b <- column pt_time 0 ;; Ok (Array1 b).

Definition baseline_weighted_car (car_time : ndarray) (gp_df : dataframe) : result ndarray :=
  b <- baseline_car car_time ;; np_mul b (referrals gp_df).

Definition baseline_weighted_pt (pt_time : ndarray) (gp_df : dataframe) : result ndarray :=
  b <- baseline_pt pt_time ;; np_mul b (referrals gp_df).

Definition improvement_car_pct (car_time : ndarray) (gp_df : dataframe)
    (weighted_car : ndarray) : result R :=
  baseline_weighted_car <- baseline_weighted_car car_time gp_df ;;
  let total_weighted_car := np_sum weighted_car in
  let baseline_total_car := np_sum baseline_weighted_car in
  if Rltb 0 baseline_total_car
  then Ok ((baseline_total_car - total_weighted_car) / baseline_total_car * 100)
  else Ok 0.

Definition improvement_pt_pct (pt_time : ndarray) (gp_df : dataframe)
    (weighted_pt : ndarray) : result R :=
  baseline_weighted_pt <- baseline_weighted_pt pt_time gp_df ;;
  let total_weighted_pt := np_sum weighted_pt in
  let baseline_total_pt := np_sum baseline_weighted_pt in
  if Rltb 0 baseline_total_pt
  then Ok ((baseline_total_pt - total_weighted_pt) / baseline_total_pt * 100)
  else Ok 0.

(** A list comprehension whose body may raise. *)
Fixpoint comprehension {A B : Type} (f : A -> result B) (l : list A) : result (list B) :=
  match l with
  | [] => Ok []
  | x :: xs => y <- f x ;; ys <- comprehension f xs ;; Ok (y :: ys)
  end.

(** [df.loc[mask, col]] with a boolean mask: the values where the mask
    holds; pandas refuses a mask of another length. *)
Definition loc_mask (mask : list bool) (col : list R) : result (list R) :=
  if Nat.eqb (length mask) (length col)
  then Ok (map snd (filter fst (combine mask col)))
  else Raise (IndexError "Boolean index has wrong length").

Record summary : Type := Summary {
  Hospital : list string;
  Total_Referrals_Assigned : list R;
  Total_Weighted_Demand_Car : list R;
  Total_Weighted_Demand_PT : list R
}.

Definition nearest_hospital_index (car_time : ndarray) : result (list nat) :=
  np_argmin_axis1 car_time.

Definition hospital_summary (car_time pt_time : ndarray)
    (gp_df hospital_df : dataframe) : result summary :=
  nearest_hospital_index <- nearest_hospital_index car_time ;;
  assigned <- comprehension
    (fun i => sel <- loc_mask (map (fun k => Nat.eqb k i) nearest_hospital_index)
                              (map Referrals gp_df) ;;
              Ok (sum_list sel))
    (seq 0 (length hospital_df)) ;;
  demand_car <- comprehension
    (fun i => c <- column car_time i ;;
              w <- np_mul (Array1 c) (referrals gp_df) ;;
              Ok (np_sum w))
    (seq 0 (length hospital_df)) ;;
  demand_pt <- comprehension
    (fun i => c <- column pt_time i ;;
              w <- np_mul (Array1 c) (referrals gp_df) ;;
              Ok (np_sum w))
    (seq 0 (length hospital_df)) ;;
  Ok (Summary (map Description hospital_df) assigned demand_car demand_pt).

End App.

Import App.

(** ** app.py: ingestion, site selection and the run of one scenario *)

Module Workflow.

(** A cell of the Referrals column as read from the CSV: a number, or text
    that [pd.to_numeric(..., errors="coerce")] turns into NaN. *)
Inductive cell : Type :=
| Numeric (x : R)
| Unreadable.

(** [pd.to_numeric(df["Referrals"], errors="coerce").fillna(0)] *)
Definition to_numeric_fillna (c : cell) : R :=
  match c with
  | Numeric x => x
  | Unreadable => 0
  end.

(** Ensure Referrals are numeric and non-negative: the coerced column, with
    [df.loc[df["Referrals"] < 0, "Referrals"] = 0]. *)
Definition clean_referrals (col : list cell) : list R :=
  map (fun x => if Rltb x 0 then 0 else x) (map to_numeric_fillna col).

(** [df["Description"].isin(hospital_names)], row by row. *)
Definition isin (hospital_names : list string) (p : place) : bool :=
  existsb (String.eqb (Description p)) hospital_names.

Definition select_hospital_df (df : dataframe) (hospital_names : list string) : dataframe :=
  filter (isin hospital_names) df.

Definition select_gp_df (df : dataframe) (hospital_names : list string) : dataframe :=
  filter (fun p => negb (isin hospital_names p)) df.

(** Truth value of a coordinate returned by [get_lat_lon]: [None] and 0.0
    are false. *)
Definition truthy (x : option R) : bool :=
  match x with
  | None => false
  | Some v => if Req_dec_T v 0 then false else true
  end.

(** The optional proposed site: with a non-empty postcode whose latitude and
    longitude are both true, one row is appended to the hospital table.  The
    appended row has no Referrals value; the column is not read for hospital
    rows and is set to 0 here. *)
Definition add_proposed_site (hospital_df : dataframe) (new_site_postcode : string)
    (get_lat_lon : string -> option R * option R) : dataframe :=
  if String.eqb new_site_postcode ""
  then hospital_df
  else
    let '(lat, lon) := get_lat_lon new_site_postcode in
    if truthy lat && truthy lon
    then match lat, lon with
         | Some la, Some lo => hospital_df ++ [Place "Proposed Site" la lo 0]
         | _, _ => hospital_df
         end
    else hospital_df.

(** The values the script computes for one scenario. *)
Record analysis : Type := Analysis {
  dist : ndarray;
  car_time : ndarray;
  pt_time : ndarray;
  nearest : metrics;
  baseline_car_time : ndarray;
  baseline_pt_time : ndarray;
  total_weighted_car : R;
  total_weighted_pt : R;
  baseline_total_car : R;
  baseline_total_pt : R;
  improvement_car : R;
  improvement_pt : R;
  nearest_site : list nat;
  summary_table : summary;
  co2_delta : R;
  fuel_delta : R;
  improvement_car_min : ndarray
}.

(** From the coordinates to the hospital summary, the metric deltas of the
    Summary tab and the per-practice improvement, in the order of the
    script. *)
Definition run_scenario (gp_df hospital_df : dataframe)
    (car_speed pt_speed fuel_cost co2_per_mile : R) : result analysis :=
  let gp_coords := coords gp_df in
  let hosp_coords := coords hospital_df in
  matrices <- compute_distance_time gp_coords hosp_coords car_speed pt_speed ;;
  let '(dist, car_time, pt_time) := matrices in
  m <- nearest_metrics (PyNdarray dist) (PyNdarray car_time) (PyNdarray pt_time)
                       (PyNdarray (referrals gp_df)) car_speed fuel_cost co2_per_mile ;;
  baseline_car <- baseline_car car_time ;;
  baseline_pt <- baseline_pt pt_time ;;
  baseline_weighted_car <- np_mul baseline_car (referrals gp_df) ;;
  baseline_weighted_pt <- np_mul baseline_pt (referrals gp_df) ;;
  let total_weighted_car := np_sum (weighted_car m) in
  let total_weighted_pt := np_sum (weighted_pt m) in
  let baseline_total_car := np_sum baseline_weighted_car in
  let baseline_total_pt := np_sum baseline_weighted_pt in
  improvement_car_pct <- improvement_car_pct car_time gp_df (weighted_car m) ;;
  improvement_pt_pct <- improvement_pt_pct pt_time gp_df (weighted_pt m) ;;
  nearest_hospital_index <- nearest_hospital_index car_time ;;
  hospital_summary <- hospital_summary car_time pt_time gp_df hospital_df ;;
  let co2_delta :=
    np_sum (Demand.co2 m) - np_sum (np_map (fun t => t / car_speed * co2_per_mile) baseline_car) in
  let fuel_delta :=
    np_sum (Demand.fuel_cost m) - np_sum (np_map (fun t => t / car_speed * fuel_cost) baseline_car) in
  improvement_car_min <- np_sub baseline_car (nearest_car_time m) ;;
  Ok (Analysis dist car_time pt_time m baseline_car baseline_pt
               total_weighted_car total_weighted_pt baseline_total_car baseline_total_pt
               improvement_car_pct improvement_pt_pct nearest_hospital_index hospital_summary
               co2_delta fuel_delta improvement_car_min).

(** What the script does with a selection: it stops with a warning, or goes
    on to the scenario. *)
Inductive outcome : Type :=
| Stopped (warning : string)
| Ran (r : result analysis).

(** The script from the selection of hospital sites on. *)
Definition main_workflow (df : dataframe) (hospital_names : list string)
    (new_site_postcode : string) (get_lat_lon : string -> option R * option R)
    (car_speed pt_speed fuel_cost co2_per_mile : R) : outcome :=
  match hospital_names with
  | [] => Stopped "Select at least one hospital site."
  | _ :: _ =>
      let hospital_df := select_hospital_df df hospital_names in
      let gp_df := select_gp_df df hospital_names in
      let hospital_df := add_proposed_site hospital_df new_site_postcode get_lat_lon in
      Ran (run_scenario gp_df hospital_df car_speed pt_speed fuel_cost co2_per_mile)
  end.

End Workflow.

(** ** analysis/geography.py *)

Module Geography.

(** POSTCODE_REGEX, [^[A-Z]{1,2}\d[A-Z\d]? ?\d[A-Z]{2}$] with IGNORECASE, on
    strings of ASCII characters, read from the right end of the pattern to
    its start. *)

Definition is_letter (c : ascii) : bool :=
  let n := nat_of_ascii c in
  (Nat.leb 65 n && Nat.leb n 90) || (Nat.leb 97 n && Nat.leb n 122).

Definition is_digit (c : ascii) : bool :=
  let n := nat_of_ascii c in Nat.leb 48 n && Nat.leb n 57.

(** [$]: the end of the string, or a newline that ends it. *)
Definition at_end (s : string) : bool :=
  match s with
  | EmptyString => true
  | String c EmptyString => Ascii.eqb c "010"
  | _ => false
  end.

(** [\d[A-Z]{2}$] *)
Definition inward (s : string) : bool :=
  match s with
  | String d (String l1 (String l2 rest)) =>
      is_digit d && is_letter l1 && is_letter l2 && at_end rest
  | _ => false
  end.

(** [ ?\d[A-Z]{2}$] *)
Definition space_inward (s : string) : bool :=
  inward s ||
  match s with
  | String c rest => Ascii.eqb c " " && inward rest
  | EmptyString => false
  end.

(** [[A-Z\d]? ?\d[A-Z]{2}$] *)
Definition alnum_space_inward (s : string) : bool :=
  space_inward s ||
  match s with
  | String c rest => (is_letter c || is_digit c) && space_inward rest
  | EmptyString => false
  end.

(** [\d[A-Z\d]? ?\d[A-Z]{2}$] *)
Definition digit_onwards (s : string) : bool :=
  match s with
  | String d rest => is_digit d && alnum_space_inward rest
  | EmptyString => false
  end.

(** [POSTCODE_REGEX.match(s)], as a truth value. *)
Definition postcode_regex_match (s : string) : bool :=
  match s with
  | String l rest =>
      is_letter l &&
      (digit_onwards rest ||
       match rest with
       | String l2 rest2 => is_letter l2 && digit_onwards rest2
       | EmptyString => false
       end)
  | EmptyString => false
  end.

(** [str.upper] on ASCII characters. *)
Definition upper_char (c : ascii) : ascii :=
  let n := nat_of_ascii c in
  if Nat.leb 97 n && Nat.leb n 122 then ascii_of_nat (n - 32) else c.

Fixpoint upper (s : string) : string :=
  match s with
  | EmptyString => EmptyString
  | String c rest => String (upper_char c) (upper rest)
  end.

(** What one call of [requests.get(url, timeout=10)] gives: a response with
    its status code and the "result" field of its JSON body (absent or
    empty, or a latitude and a longitude, each possibly null), or a
    [RequestException]. *)
Inductive response : Type :=
| Reply (status_code : Z) (result : option (option R * option R))
| RequestException.

(** What a call leaves behind: the requests sent and the seconds slept. *)
Record effects : Type := Effects {
  requests : nat;
  slept : nat
}.

(** The body of [for attempt in range(1, retries + 1)], from attempt number
    [attempt] on, with [remaining] attempts left. *)
Fixpoint attempts (network : nat -> response) (attempt remaining : nat) (eff : effects)
  : (option R * option R) * effects :=
  match remaining with
  | O => ((None, None), eff)
  | S remaining' =>
      let sent := Effects (S (requests eff)) (slept eff) in
      match network attempt with
      | Reply status_code result =>
          if Z.eqb status_code 200
          then match result with
               | Some (latitude, longitude) => ((latitude, longitude), sent)
               | None => ((None, None), sent)
               end
          else attempts network (S attempt) remaining' sent
      | RequestException =>
          attempts network (S attempt) remaining'
                   (Effects (S (requests eff)) (S (slept eff)))
      end
  end.

(** [get_lat_lon(postcode, retries)]: [strip_upper] is
    [postcode.strip().upper()], [regex_match] is [POSTCODE_REGEX.match], and
    [network n] is the outcome of the n-th request.  The cache of
    [st.cache_data] and the log lines are left out. *)
Definition get_lat_lon (strip_upper : string -> string) (regex_match : string -> bool)
    (network : nat -> response) (postcode : string) (retries : Z)
  : (option R * option R) * effects :=
  let postcode := strip_upper postcode in
  if negb (regex_match postcode)
  then ((None, None), Effects 0 0)
  else attempts network 1 (Z.to_nat retries) (Effects 0 0).

End Geography.

(** ** Specification-side definitions *)

(** The great-circle distance in miles between two points given in degrees,
    by the haversine formula on a sphere of radius 3959 miles. *)
Definition great_circle_miles (lat1 lon1 lat2 lon2 : R) : R :=
  let phi1 := lat1 * (PI / 180) in
  let lam1 := lon1 * (PI / 180) in
  let phi2 := lat2 * (PI / 180) in
  let lam2 := lon2 * (PI / 180) in
  let hav := sin ((phi2 - phi1) / 2) ^ 2
             + cos phi1 * cos phi2 * sin ((lam2 - lam1) / 2) ^ 2 in
  3959 * (2 * asin (sqrt hav)).

(** Latitude and longitude of row [i] of an (n, 2) coordinate array. *)
Definition lat_of (coords : list (list R)) (i : nat) : R := nth 0 (nth i coords []) 0.
Definition lon_of (coords : list (list R)) (i : nat) : R := nth 1 (nth i coords []) 0.

(** The table of a function of a row index and a column index. *)
Definition tab {A B : Type} (F : A -> B -> R) (gs : list A) (hs : list B) : list (list R) :=
  map (fun g => map (F g) hs) gs.

(** Sum of [F 0 + ... + F (n-1)]. *)
Definition sum_upto (n : nat) (F : nat -> R) : R := sum_list (map F (seq 0 n)).

(** [a] is a rank-2 array of shape (n, m). *)
Definition has_shape (a : ndarray) (n m : nat) : Prop :=
  match a with
  | Array1 _ => False
  | Array2 m' rows => m' = m /\ length rows = n /\ Forall (fun r => length r = m) rows
  end.

(** [v] is the minimum of row [i] of the (n, m) array [a]: below every entry
    of the row and equal to one of them. *)
Definition is_row_minimum (a : ndarray) (m i : nat) (v : R) : Prop :=
  (forall j, (j < m)%nat -> v <= entry a i j) /\
  (exists j, (j < m)%nat /\ v = entry a i j).

(** Referrals of the demand points whose nearest site is [j], as selected by
    the boolean mask [nearest_hospital_index == j]. *)
Definition assigned_to (j : nat) (idx : list nat) (refs : list R) : R :=
  sum_list (map snd (filter fst (combine (map (fun k => Nat.eqb k j) idx) refs))).

(** The referral-weighted total time to the first site of the ordering. *)
Definition baseline_total (time : ndarray) (gp_df : dataframe) : R :=
  sum_upto (length gp_df) (fun i => nth i (map Referrals gp_df) 0 * entry time i 0).

(** The distance function of the table that [compute_distance_time] fills. *)
Definition pair_miles (g h : list R) : R :=
  great_circle_miles (nth 0 g 0) (nth 1 g 0) (nth 0 h 0) (nth 1 h 0).

(** [a] passes the shape check of [compute_distance_time]: two dimensions
    and two columns. *)
Definition two_columns (a : ndarray) : Prop :=
  ndim a = 2%nat /\ nth 1 (shape a) 0%nat = 2%nat.

(** The rows of [coords df]. *)
Definition coord_rows (df : dataframe) : list (list R) :=
  map (fun p => [result_latitude p; result_longitude p]) df.

(** Minutes from [g] to [h] at a constant speed. *)
Definition pair_minutes (speed : R) (g h : list R) : R := pair_miles g h / speed * 60.

(** The improvement percentage of a scenario total [t] over a baseline
    total [b]. *)
Definition improvement_value (b t : R) : R :=
  if Rltb 0 b then (b - t) / b * 100 else 0.

(** A response that ends the retry loop: one with status code 200. *)
Definition is_200 (r : Geography.response) : bool :=
  match r with
  | Geography.Reply status_code _ => Z.eqb status_code 200
  | Geography.RequestException => false
  end.

Definition is_exception (r : Geography.response) : bool :=
  match r with
  | Geography.Reply _ _ => false
  | Geography.RequestException => true
  end.

(** The exceptions among the [n] requests from number [a] on. *)
Definition exceptions (network : nat -> Geography.response) (a n : nat) : nat :=
  length (filter is_exception (map network (seq a n))).


Ltac shape_inv H rows Hlen Hall :=
  match type of H with
  | has_shape ?a _ _ =>
      destruct a as [? | ? rows]; simpl in H;
      [contradiction | destruct H as (-> & Hlen & Hall)]
  end.

(** ** Broadcasting lemmas *)

Lemma Rleb_false (x y : R) : y < x -> Rleb x y = false.
Proof. intro H. unfold Rleb. destruct (Rle_dec x y); [lra | reflexivity]. Qed.

Lemma Rltb_true (x y : R) : x < y -> Rltb x y = true.
Proof. intro H. unfold Rltb. destruct (Rlt_dec x y); [reflexivity | lra]. Qed.

Lemma Rltb_false (x y : R) : y <= x -> Rltb x y = false.
Proof. intro H. unfold Rltb. destruct (Rlt_dec x y); [lra | reflexivity]. Qed.

Lemma broadcast_dim_refl (n : nat) : broadcast_dim n n = Some n.
Proof. unfold broadcast_dim. now rewrite Nat.eqb_refl. Qed.

Lemma broadcast_dim_1_l (n : nat) : broadcast_dim 1 n = Some n.
Proof.
  unfold broadcast_dim. destruct (Nat.eqb_spec 1 n) as [<- | _]; reflexivity.
Qed.

Lemma broadcast_dim_1_r (n : nat) : broadcast_dim n 1 = Some n.
Proof.
  unfold broadcast_dim. destruct (Nat.eqb_spec n 1) as [-> | _]; reflexivity.
Qed.

Lemma zipWith_map {A B C D : Type} (f : B -> C -> D) (a : A -> B) (b : A -> C) (l : list A) :
  zipWith f (map a l) (map b l) = map (fun x => f (a x) (b x)) l.
Proof. induction l as [| x l IH]; simpl; [reflexivity | now rewrite IH]. Qed.

Lemma zipWith_length {A B C : Type} (f : A -> B -> C) (la : list A) (lb : list B) :
  length la = length lb -> length (zipWith f la lb) = length la.
Proof.
  revert lb. induction la as [| a la IH]; intros [| b lb] H; simpl in *; try congruence.
  now rewrite IH by congruence.
Qed.

Lemma zipWith_nth {A B C : Type} (f : A -> B -> C) (la : list A) (lb : list B)
    (i : nat) (da : A) (db : B) (dc : C) :
  (i < length la)%nat -> (i < length lb)%nat ->
  nth i (zipWith f la lb) dc = f (nth i la da) (nth i lb db).
Proof.
  revert lb i. induction la as [| a la IH]; intros [| b lb] [| i] Ha Hb; simpl in *; try lia.
  - reflexivity.
  - apply IH; lia.
Qed.

Lemma bzip_same {A B C : Type} (f : A -> B -> C) (la : list A) (lb : list B) :
  length la = length lb -> bzip f la lb = zipWith f la lb.
Proof. intro H. unfold bzip. now rewrite H, Nat.eqb_refl. Qed.

Lemma bzip_single_l {A B C : Type} (f : A -> B -> C) (a : A) (lb : list B) :
  bzip f [a] lb = map (f a) lb.
Proof. destruct lb as [| b [| b' lb]]; reflexivity. Qed.

Lemma bzip_single_r {A B C : Type} (f : A -> B -> C) (la : list A) (b : B) :
  bzip f la [b] = map (fun a => f a b) la.
Proof. destruct la as [| a [| a' la]]; reflexivity. Qed.

Lemma bzip_map {A B C D : Type} (f : B -> C -> D) (a : A -> B) (b : A -> C) (l : list A) :
  bzip f (map a l) (map b l) = map (fun x => f (a x) (b x)) l.
Proof. rewrite bzip_same by now rewrite !length_map. apply zipWith_map. Qed.

Lemma np_binop_row_col {A B : Type} (f : R -> R -> R) (b : B -> R) (a : A -> R)
    (hs : list B) (gs : list A) :
  np_binop f (Array2 (length hs) [map b hs]) (Array2 1 (map (fun g => [a g]) gs))
  = Ok (Array2 (length hs) (tab (fun g h => f (b h) (a g)) gs hs)).
Proof.
  unfold np_binop, as2d. cbn [length].
  rewrite broadcast_dim_1_l, broadcast_dim_1_r.
  rewrite bzip_single_l, map_map. unfold tab.
  do 2 f_equal. apply map_ext. intro g.
  rewrite bzip_single_r, map_map. reflexivity.
Qed.

Lemma np_binop_col_row {A B : Type} (f : R -> R -> R) (a : A -> R) (b : B -> R)
    (gs : list A) (hs : list B) :
  np_binop f (Array2 1 (map (fun g => [a g]) gs)) (Array2 (length hs) [map b hs])
  = Ok (Array2 (length hs) (tab (fun g h => f (a g) (b h)) gs hs)).
Proof.
  unfold np_binop, as2d. cbn [length].
  rewrite broadcast_dim_1_l, broadcast_dim_1_r.
  rewrite bzip_single_r, map_map. unfold tab.
  do 2 f_equal. apply map_ext. intro g.
  rewrite bzip_single_l, map_map. reflexivity.
Qed.

Lemma np_binop_tab {A B : Type} (f : R -> R -> R) (F G : A -> B -> R)
    (gs : list A) (hs : list B) (m : nat) :
  np_binop f (Array2 m (tab F gs hs)) (Array2 m (tab G gs hs))
  = Ok (Array2 m (tab (fun g h => f (F g h) (G g h)) gs hs)).
Proof.
  unfold np_binop, as2d, tab. rewrite !length_map, !broadcast_dim_refl.
  rewrite bzip_map. do 2 f_equal. apply map_ext. intro g. apply bzip_map.
Qed.

Lemma np_map_tab {A B : Type} (f : R -> R) (F : A -> B -> R)
    (gs : list A) (hs : list B) (m : nat) :
  np_map f (Array2 m (tab F gs hs)) = Array2 m (tab (fun g h => f (F g h)) gs hs).
Proof.
  unfold np_map, tab. f_equal. rewrite map_map. apply map_ext. intro g.
  now rewrite map_map.
Qed.

Lemma as_column_map {A : Type} (a : A -> R) (gs : list A) :
  as_column (map a gs) = Array2 1 (map (fun g => [a g]) gs).
Proof. unfold as_column. now rewrite map_map. Qed.

Lemma as_row_map {A : Type} (b : A -> R) (hs : list A) :
  as_row (map b hs) = Array2 (length hs) [map b hs].
Proof. unfold as_row. now rewrite length_map. Qed.

Lemma np_map_col {A : Type} (f : R -> R) (a : A -> R) (gs : list A) :
  np_map f (Array2 1 (map (fun g => [a g]) gs)) = Array2 1 (map (fun g => [f (a g)]) gs).
Proof. unfold np_map. now rewrite map_map. Qed.

Lemma np_map_row {A : Type} (f : R -> R) (b : A -> R) (hs : list A) (m : nat) :
  np_map f (Array2 m [map b hs]) = Array2 m [map (fun h => f (b h)) hs].
Proof. unfold np_map. cbn [map]. now rewrite map_map. Qed.

Lemma tab_length {A B : Type} (F : A -> B -> R) (gs : list A) (hs : list B) :
  length (tab F gs hs) = length gs.
Proof. unfold tab. apply length_map. Qed.

Lemma tab_rectangular {A B : Type} (F : A -> B -> R) (gs : list A) (hs : list B) :
  Forall (fun r => length r = length hs) (tab F gs hs).
Proof.
  unfold tab. apply Forall_forall. intros r Hr.
  apply in_map_iff in Hr as [g [<- _]]. apply length_map.
Qed.

Lemma tab_entry {A B : Type} (F : A -> B -> R) (gs : list A) (hs : list B)
    (m i j : nat) (dg : A) (dh : B) :
  (i < length gs)%nat -> (j < length hs)%nat ->
  entry (Array2 m (tab F gs hs)) i j = F (nth i gs dg) (nth j hs dh).
Proof.
  intros Hi Hj. unfold entry, tab.
  rewrite (nth_indep _ [] (map (F dg) hs)) by now rewrite length_map.
  rewrite (map_nth (fun g => map (F g) hs) gs dg i).
  rewrite (nth_indep _ 0 (F (nth i gs dg) dh)) by now rewrite length_map.
  apply (map_nth (F (nth i gs dg)) hs dh j).
Qed.

(** The broadcast haversine of a column of demand points against a row of
    sites is the table of the pairwise formula. *)
Lemma haversine_np_table {A B : Type} (lat1 lon1 : A -> R) (lat2 lon2 : B -> R)
    (gs : list A) (hs : list B) :
  haversine_np (as_column (map lat1 gs)) (as_column (map lon1 gs))
               (as_row (map lat2 hs)) (as_row (map lon2 hs))
  = Ok (Array2 (length hs)
          (tab (fun g h => great_circle_miles (lat1 g) (lon1 g) (lat2 h) (lon2 h)) gs hs)).
Proof.
  unfold haversine_np, np_radians, np_sin, np_cos, np_sqrt, np_arcsin, np_sub, np_mul, np_add.
  rewrite !as_column_map, !as_row_map, !np_map_col, !np_map_row.
  rewrite !np_binop_row_col. cbn [bind].
  rewrite !np_map_tab.
  rewrite np_binop_col_row. cbn [bind].
  rewrite np_binop_tab. cbn [bind].
  rewrite np_binop_tab. cbn [bind].
  rewrite !np_map_tab. reflexivity.
Qed.

(** ** compute_distance_time *)

Lemma compute_distance_time_table (gp hosp : list (list R)) (car_speed_mph pt_speed_mph : R) :
  0 < car_speed_mph -> 0 < pt_speed_mph ->
  compute_distance_time (Array2 2 gp) (Array2 2 hosp) car_speed_mph pt_speed_mph
  = Ok (Array2 (length hosp)
          (tab (fun g h => great_circle_miles (nth 0 g 0) (nth 1 g 0) (nth 0 h 0) (nth 1 h 0))
               gp hosp),
        Array2 (length hosp)
          (tab (fun g h => great_circle_miles (nth 0 g 0) (nth 1 g 0) (nth 0 h 0) (nth 1 h 0)
                           / car_speed_mph * 60) gp hosp),
        Array2 (length hosp)
          (tab (fun g h => great_circle_miles (nth 0 g 0) (nth 1 g 0) (nth 0 h 0) (nth 1 h 0)
                           / pt_speed_mph * 60) gp hosp)).
Proof.
  intros Hcar Hpt. unfold compute_distance_time.
  cbn [ndim shape nth Nat.eqb negb orb column Nat.ltb Nat.leb bind].
  rewrite (Rleb_false _ _ Hcar), (Rleb_false _ _ Hpt). cbn [orb].
  rewrite haversine_np_table. cbn [bind].
  rewrite !np_map_tab. reflexivity.
Qed.

(** C1: for valid inputs, entry (i, j) of the distance matrix is the
    great-circle (haversine) distance on the sphere of radius 3959 miles
    between demand point i and site j, a function of these two points only,
    and the car and public-transport entries are that distance divided by the
    respective speed, times 60. *)
Theorem compute_distance_time_pairwise
    (gp hosp : list (list R)) (car_speed_mph pt_speed_mph : R) :
  0 < car_speed_mph -> 0 < pt_speed_mph ->
  exists dist_miles car_time_min pt_time_min,
    compute_distance_time (Array2 2 gp) (Array2 2 hosp) car_speed_mph pt_speed_mph
    = Ok (dist_miles, car_time_min, pt_time_min) /\
    has_shape dist_miles (length gp) (length hosp) /\
    has_shape car_time_min (length gp) (length hosp) /\
    has_shape pt_time_min (length gp) (length hosp) /\
    forall i j, (i < length gp)%nat -> (j < length hosp)%nat ->
      entry dist_miles i j
      = great_circle_miles (lat_of gp i) (lon_of gp i) (lat_of hosp j) (lon_of hosp j) /\
      entry car_time_min i j = entry dist_miles i j / car_speed_mph * 60 /\
      entry pt_time_min i j = entry dist_miles i j / pt_speed_mph * 60.
Proof.
  intros Hcar Hpt. do 3 eexists.
  split; [apply compute_distance_time_table; assumption |].
  repeat split; try apply tab_length; try apply tab_rectangular.
  - rewrite (tab_entry _ _ _ _ _ _ [] []) by assumption. reflexivity.
  - rewrite !(tab_entry _ _ _ _ _ _ [] []) by assumption. reflexivity.
  - rewrite !(tab_entry _ _ _ _ _ _ [] []) by assumption. reflexivity.
Qed.

Lemma compute_distance_time_pairwise_witness :
  exists dist_miles car_time_min pt_time_min,
    compute_distance_time (Array2 2 [[51.50; -0.10]; [51.52; -0.12]])
                          (Array2 2 [[51.51; -0.11]; [51.60; -0.20]]) 40 25
    = Ok (dist_miles, car_time_min, pt_time_min) /\
    entry car_time_min 1 0 = entry dist_miles 1 0 / 40 * 60.
Proof.
  destruct (compute_distance_time_pairwise
              [[51.50; -0.10]; [51.52; -0.12]] [[51.51; -0.11]; [51.60; -0.20]] 40 25)
    as (d & c & p & Heq & _ & _ & _ & Hentries); [lra | lra |].
  exists d, c, p. split; [exact Heq |].
  apply (Hentries 1%nat 0%nat); simpl; lia.
Defined.

(** ** Row minima *)

Lemma fold_left_Rmin_le_init (xs : list R) (x : R) : fold_left Rmin xs x <= x.
Proof.
  revert x. induction xs as [| y xs IH]; intro x; simpl; [lra |].
  apply Rle_trans with (Rmin x y); [apply IH | apply Rmin_l].
Qed.

Lemma fold_left_Rmin_le_elem (xs : list R) (x y : R) :
  In y xs -> fold_left Rmin xs x <= y.
Proof.
  revert x. induction xs as [| z xs IH]; intros x Hin; simpl in *; [contradiction |].
  destruct Hin as [-> | Hin].
  - apply Rle_trans with (Rmin x y); [apply fold_left_Rmin_le_init | apply Rmin_r].
  - now apply IH.
Qed.

Lemma fold_left_Rmin_attained (xs : list R) (x : R) :
  In (fold_left Rmin xs x) (x :: xs).
Proof.
  revert x. induction xs as [| y xs IH]; intro x; simpl; [now left |].
  destruct (IH (Rmin x y)) as [H | H].
  - rewrite <- H. unfold Rmin. destruct (Rle_dec x y); [now left | right; now left].
  - right; right; exact H.
Qed.

Lemma row_min_le (r : list R) (y : R) : In y r -> row_min r <= y.
Proof.
  destruct r as [| x xs]; simpl; [contradiction |].
  intros [<- | Hin]; [apply fold_left_Rmin_le_init | now apply fold_left_Rmin_le_elem].
Qed.

Lemma row_min_attained (r : list R) : r <> [] -> In (row_min r) r.
Proof.
  destruct r as [| x xs]; [congruence | intros _]. apply fold_left_Rmin_attained.
Qed.

(** A non-decreasing rescaling commutes with the row minimum. *)
Lemma row_min_map_monotone (f : R -> R) (r : list R) :
  (forall a b, a <= b -> f a <= f b) -> r <> [] ->
  row_min (map f r) = f (row_min r).
Proof.
  intros Hmono. destruct r as [| x xs]; [congruence | intros _]. simpl.
  revert x. induction xs as [| y xs IH]; intro x; simpl; [reflexivity |].
  rewrite <- IH. f_equal.
  unfold Rmin. destruct (Rle_dec x y) as [Hxy | Hxy]; destruct (Rle_dec (f x) (f y)) as [Hf | Hf];
    try reflexivity.
  - exfalso. apply Hf, Hmono, Hxy.
  - apply Rle_antisym; [exact Hf | apply Hmono; lra].
Qed.

Lemma nth_row_length (rows : list (list R)) (m i : nat) :
  Forall (fun r => length r = m) rows -> (i < length rows)%nat ->
  length (nth i rows []) = m.
Proof.
  intros Hall Hi. rewrite Forall_forall in Hall. apply Hall, nth_In, Hi.
Qed.

Lemma item_map_row_min (rows : list (list R)) (i : nat) :
  item (Array1 (map row_min rows)) i = row_min (nth i rows []).
Proof. unfold item. exact (map_nth row_min rows [] i). Qed.

Lemma row_min_is_row_minimum (rows : list (list R)) (m i : nat) :
  Forall (fun r => length r = m) rows -> (0 < m)%nat -> (i < length rows)%nat ->
  is_row_minimum (Array2 m rows) m i (row_min (nth i rows [])).
Proof.
  intros Hall Hm Hi. pose proof (nth_row_length rows m i Hall Hi) as Hlen.
  unfold is_row_minimum, entry. split.
  - intros j Hj. apply row_min_le, nth_In. lia.
  - assert (Hne : nth i rows [] <> []).
    { intro E. rewrite E in Hlen. simpl in Hlen. lia. }
    destruct (In_nth _ _ 0 (row_min_attained _ Hne)) as (j & Hj & Hnth).
    exists j. split; [lia | now symmetry].
Qed.

(** ** nearest_metrics on arrays of the documented shapes *)

Lemma np_binop_vectors (f : R -> R -> R) (u v : list R) :
  length u = length v ->
  np_binop f (Array1 u) (Array1 v) = Ok (Array1 (zipWith f u v)).
Proof.
  intro H. unfold np_binop. rewrite H, broadcast_dim_refl, bzip_same by congruence.
  reflexivity.
Qed.

Lemma nearest_metrics_arrays (md mc mp : nat) (rd rc rp : list (list R)) (refs : list R)
    (car_speed_mph fuel_cost_per_mile co2_per_mile : R) :
  (0 < md)%nat -> (0 < mc)%nat -> (0 < mp)%nat ->
  length rc = length refs -> length rp = length refs ->
  nearest_metrics (PyNdarray (Array2 md rd)) (PyNdarray (Array2 mc rc))
                  (PyNdarray (Array2 mp rp)) (PyNdarray (Array1 refs))
                  car_speed_mph fuel_cost_per_mile co2_per_mile
  = Ok (Metrics
          (Array1 (map row_min rd))
          (Array1 (map row_min rc))
          (Array1 (map row_min rp))
          (Array1 (map (fun r => row_min r / 60 * car_speed_mph * fuel_cost_per_mile) rc))
          (Array1 (map (fun r => row_min r / 60 * car_speed_mph * co2_per_mile) rc))
          (Array1 (zipWith Rmult refs (map row_min rc)))
          (Array1 (zipWith Rmult refs (map row_min rp)))
          (Array1 (zipWith Rplus (zipWith Rmult refs (map row_min rc))
                                 (zipWith Rmult refs (map row_min rp))))).
Proof.
  intros Hd Hc Hp Hlc Hlp. unfold nearest_metrics, np_min_axis1.
  destruct (Nat.eqb_spec md 0); [lia |].
  destruct (Nat.eqb_spec mc 0); [lia |].
  destruct (Nat.eqb_spec mp 0); [lia |].
  cbn [bind]. unfold np_mul, np_add.
  rewrite !np_binop_vectors by (rewrite length_map; congruence). cbn [bind].
  rewrite np_binop_vectors
    by (rewrite !zipWith_length; rewrite ?length_map; congruence).
  cbn [bind np_map]. rewrite !map_map. reflexivity.
Qed.

(** C2: each of nearest_dist, nearest_car_time and nearest_pt_time is the row
    minimum of its own matrix: at every demand point it is below the entry of
    every site and equal to the entry of some site. *)
Theorem nearest_metrics_row_minima
    (dist_miles car_time_min pt_time_min : ndarray) (monthly_referrals : list R)
    (n md mc mp : nat) (car_speed_mph fuel_cost_per_mile co2_per_mile : R) :
  has_shape dist_miles n md -> has_shape car_time_min n mc -> has_shape pt_time_min n mp ->
  (0 < md)%nat -> (0 < mc)%nat -> (0 < mp)%nat ->
  length monthly_referrals = n ->
  exists m,
    nearest_metrics (PyNdarray dist_miles) (PyNdarray car_time_min) (PyNdarray pt_time_min)
                    (PyNdarray (Array1 monthly_referrals))
                    car_speed_mph fuel_cost_per_mile co2_per_mile = Ok m /\
    forall i, (i < n)%nat ->
      is_row_minimum dist_miles md i (item (nearest_dist m) i) /\
      is_row_minimum car_time_min mc i (item (nearest_car_time m) i) /\
      is_row_minimum pt_time_min mp i (item (nearest_pt_time m) i).
Proof.
  intros Hd Hc Hp Hmd Hmc Hmp Hrefs.
  shape_inv Hd rd Hld Had. shape_inv Hc rc Hlc Hac. shape_inv Hp rp Hlp Hap.
  eexists. split.
  - apply nearest_metrics_arrays; congruence.
  - intros i Hi. cbn [nearest_dist nearest_car_time nearest_pt_time].
    rewrite !item_map_row_min.
    repeat split; try (apply row_min_is_row_minimum; (assumption || lia)).
Qed.

Lemma nearest_metrics_row_minima_witness :
  exists m,
    nearest_metrics (PyNdarray (Array2 2 [[3; 1]; [2; 5]]))
                    (PyNdarray (Array2 2 [[6; 2]; [4; 10]]))
                    (PyNdarray (Array2 2 [[9; 3]; [6; 15]]))
                    (PyNdarray (Array1 [100; 50])) 30 (1/5) (1/4) = Ok m /\
    is_row_minimum (Array2 2 [[3; 1]; [2; 5]]) 2 0 (item (nearest_dist m) 0).
Proof.
  destruct (nearest_metrics_row_minima
              (Array2 2 [[3; 1]; [2; 5]]) (Array2 2 [[6; 2]; [4; 10]])
              (Array2 2 [[9; 3]; [6; 15]]) [100; 50] 2 2 2 2 30 (1/5) (1/4))
    as (m & Heq & Hmin);
    try (simpl; repeat constructor); try lia.
  exists m. split; [exact Heq |]. apply (Hmin 0%nat). lia.
Defined.

(** C6: weighted_car[i] = referrals[i] * nearest_car_time[i],
    weighted_pt[i] = referrals[i] * nearest_pt_time[i] and
    weighted_access_score[i] = weighted_car[i] + weighted_pt[i], one value per
    demand point and nothing shared between demand points. *)
Theorem nearest_metrics_weighted
    (dist_miles car_time_min pt_time_min : ndarray) (monthly_referrals : list R)
    (n md mc mp : nat) (car_speed_mph fuel_cost_per_mile co2_per_mile : R) :
  has_shape dist_miles n md -> has_shape car_time_min n mc -> has_shape pt_time_min n mp ->
  (0 < md)%nat -> (0 < mc)%nat -> (0 < mp)%nat ->
  length monthly_referrals = n ->
  exists m,
    nearest_metrics (PyNdarray dist_miles) (PyNdarray car_time_min) (PyNdarray pt_time_min)
                    (PyNdarray (Array1 monthly_referrals))
                    car_speed_mph fuel_cost_per_mile co2_per_mile = Ok m /\
    shape (weighted_car m) = [n] /\
    shape (weighted_pt m) = [n] /\
    shape (weighted_access_score m) = [n] /\
    forall i, (i < n)%nat ->
      item (weighted_car m) i = nth i monthly_referrals 0 * item (nearest_car_time m) i /\
      item (weighted_pt m) i = nth i monthly_referrals 0 * item (nearest_pt_time m) i /\
      item (weighted_access_score m) i = item (weighted_car m) i + item (weighted_pt m) i.
Proof.
  intros Hd Hc Hp Hmd Hmc Hmp Hrefs.
  shape_inv Hd rd Hld Had. shape_inv Hc rc Hlc Hac. shape_inv Hp rp Hlp Hap.
  eexists. split; [apply nearest_metrics_arrays; congruence |].
  cbn [weighted_car weighted_pt weighted_access_score nearest_car_time nearest_pt_time
       shape item].
  assert (Hwc : length (zipWith Rmult monthly_referrals (map row_min rc)) = n)
    by (rewrite zipWith_length; rewrite ?length_map; congruence).
  assert (Hwp : length (zipWith Rmult monthly_referrals (map row_min rp)) = n)
    by (rewrite zipWith_length; rewrite ?length_map; congruence).
  repeat split.
  - now rewrite Hwc.
  - now rewrite Hwp.
  - rewrite zipWith_length by congruence. now rewrite Hwc.
  - apply zipWith_nth; rewrite ?length_map; lia.
  - apply zipWith_nth; rewrite ?length_map; lia.
  - apply zipWith_nth; lia.
Qed.

Lemma nearest_metrics_weighted_witness :
  exists m,
    nearest_metrics (PyNdarray (Array2 2 [[3; 1]; [2; 5]]))
                    (PyNdarray (Array2 2 [[6; 2]; [4; 10]]))
                    (PyNdarray (Array2 2 [[9; 3]; [6; 15]]))
                    (PyNdarray (Array1 [100; 50])) 30 (1/5) (1/4) = Ok m /\
    item (weighted_access_score m) 1 = item (weighted_car m) 1 + item (weighted_pt m) 1.
Proof.
  destruct (nearest_metrics_weighted
              (Array2 2 [[3; 1]; [2; 5]]) (Array2 2 [[6; 2]; [4; 10]])
              (Array2 2 [[9; 3]; [6; 15]]) [100; 50] 2 2 2 2 30 (1/5) (1/4))
    as (m & Heq & _ & _ & _ & Hw);
    try (simpl; repeat constructor); try lia.
  exists m. split; [exact Heq |]. apply (Hw 1%nat). lia.
Defined.

Lemma rescale_monotone (speed a b : R) :
  0 < speed -> a <= b -> a / speed * 60 <= b / speed * 60.
Proof.
  intros Hs Hab. unfold Rdiv.
  pose proof (Rinv_0_lt_compat speed Hs) as Hinv. nra.
Qed.

Lemma row_min_rescaled (rd : list (list R)) (md i : nat) (speed : R) :
  Forall (fun r => length r = md) rd -> (0 < md)%nat -> (i < length rd)%nat ->
  0 < speed ->
  row_min (nth i (map (map (fun d => d / speed * 60)) rd) [])
  = row_min (nth i rd []) / speed * 60.
Proof.
  intros Hall Hmd Hi Hspeed.
  replace (nth i (map (map (fun d => d / speed * 60)) rd) [])
    with (map (fun d => d / speed * 60) (nth i rd []))
    by (symmetry; exact (map_nth (map (fun d => d / speed * 60)) rd [] i)).
  apply row_min_map_monotone.
  - intros a b Hab. now apply rescale_monotone.
  - intro E. pose proof (nth_row_length rd md i Hall Hi) as Hlen.
    rewrite E in Hlen. simpl in Hlen. lia.
Qed.

(** C7: when the car-time matrix is the distance matrix divided by the
    positive car speed and multiplied by 60, entry by entry, the row minimum
    commutes with the rescaling:
    nearest_car_time[i] = nearest_dist[i] / car_speed * 60. *)
Theorem nearest_car_time_rescales_nearest_dist
    (dist_miles pt_time_min : ndarray) (monthly_referrals : list R)
    (n md mp : nat) (car_speed_mph fuel_cost_per_mile co2_per_mile : R) :
  has_shape dist_miles n md -> has_shape pt_time_min n mp ->
  (0 < md)%nat -> (0 < mp)%nat ->
  length monthly_referrals = n ->
  0 < car_speed_mph ->
  let car_time_min := np_map (fun d => d / car_speed_mph * 60) dist_miles in
  exists m,
    nearest_metrics (PyNdarray dist_miles) (PyNdarray car_time_min) (PyNdarray pt_time_min)
                    (PyNdarray (Array1 monthly_referrals))
                    car_speed_mph fuel_cost_per_mile co2_per_mile = Ok m /\
    forall i, (i < n)%nat ->
      item (nearest_car_time m) i = item (nearest_dist m) i / car_speed_mph * 60.
Proof.
  intros Hd Hp Hmd Hmp Hrefs Hspeed.
  shape_inv Hd rd Hld Had. shape_inv Hp rp Hlp Hap.
  cbn [np_map]. eexists. split.
  - apply nearest_metrics_arrays; rewrite ?length_map; congruence.
  - intros i Hi. cbn [nearest_dist nearest_car_time].
    rewrite !item_map_row_min.
    apply (row_min_rescaled rd md i); (assumption || lia).
Qed.

Lemma nearest_car_time_rescales_nearest_dist_witness :
  exists m,
    nearest_metrics (PyNdarray (Array2 2 [[3; 1]; [2; 5]]))
                    (PyNdarray (np_map (fun d => d / 30 * 60) (Array2 2 [[3; 1]; [2; 5]])))
                    (PyNdarray (Array2 2 [[9; 3]; [6; 15]]))
                    (PyNdarray (Array1 [100; 50])) 30 (1/5) (1/4) = Ok m /\
    item (nearest_car_time m) 0 = item (nearest_dist m) 0 / 30 * 60.
Proof.
  destruct (nearest_car_time_rescales_nearest_dist
              (Array2 2 [[3; 1]; [2; 5]]) (Array2 2 [[9; 3]; [6; 15]])
              [100; 50] 2 2 2 30 (1/5) (1/4))
    as (m & Heq & Hr);
    try (simpl; repeat constructor); try lia; try lra.
  exists m. split; [exact Heq |]. apply (Hr 0%nat). lia.
Defined.

(** C8: fuel cost and CO2 come from the nearest car time alone:
    miles[i] = nearest_car_time[i] / 60 * car_speed,
    fuel_cost[i] = miles[i] * fuel_cost_per_mile and
    co2[i] = miles[i] * co2_per_mile; with fuel_cost_per_mile = 0 every fuel
    cost is 0, whatever the distances. *)
Theorem nearest_metrics_fuel_co2
    (dist_miles car_time_min pt_time_min : ndarray) (monthly_referrals : list R)
    (n md mc mp : nat) (car_speed_mph fuel_cost_per_mile co2_per_mile : R) :
  has_shape dist_miles n md -> has_shape car_time_min n mc -> has_shape pt_time_min n mp ->
  (0 < md)%nat -> (0 < mc)%nat -> (0 < mp)%nat ->
  length monthly_referrals = n ->
  (exists m,
     nearest_metrics (PyNdarray dist_miles) (PyNdarray car_time_min) (PyNdarray pt_time_min)
                     (PyNdarray (Array1 monthly_referrals))
                     car_speed_mph fuel_cost_per_mile co2_per_mile = Ok m /\
     shape (fuel_cost m) = [n] /\ shape (co2 m) = [n] /\
     forall i, (i < n)%nat ->
       let miles := item (nearest_car_time m) i / 60 * car_speed_mph in
       item (fuel_cost m) i = miles * fuel_cost_per_mile /\
       item (co2 m) i = miles * co2_per_mile) /\
  (exists m0,
     nearest_metrics (PyNdarray dist_miles) (PyNdarray car_time_min) (PyNdarray pt_time_min)
                     (PyNdarray (Array1 monthly_referrals))
                     car_speed_mph 0 co2_per_mile = Ok m0 /\
     forall i, (i < n)%nat -> item (fuel_cost m0) i = 0).
Proof.
  intros Hd Hc Hp Hmd Hmc Hmp Hrefs.
  shape_inv Hd rd Hld Had. shape_inv Hc rc Hlc Hac. shape_inv Hp rp Hlp Hap.
  assert (Hitem : forall k i, (i < n)%nat ->
            item (Array1 (map (fun r => row_min r / 60 * car_speed_mph * k) rc)) i
            = row_min (nth i rc []) / 60 * car_speed_mph * k).
  { intros k i Hi. unfold item.
    rewrite (nth_indep _ 0 ((fun r => row_min r / 60 * car_speed_mph * k) []))
      by (rewrite length_map; lia).
    exact (map_nth (fun r => row_min r / 60 * car_speed_mph * k) rc [] i). }
  split; eexists; (split; [apply nearest_metrics_arrays; congruence |]).
  - cbn [fuel_cost co2 nearest_car_time shape]. rewrite !length_map.
    repeat split; try congruence.
    + rewrite item_map_row_min. now apply Hitem.
    + rewrite item_map_row_min. now apply Hitem.
  - intros i Hi. cbn [fuel_cost]. rewrite Hitem by assumption. lra.
Qed.

Lemma nearest_metrics_fuel_co2_witness :
  exists m0,
    nearest_metrics (PyNdarray (Array2 2 [[3; 1]; [2; 5]]))
                    (PyNdarray (Array2 2 [[6; 2]; [4; 10]]))
                    (PyNdarray (Array2 2 [[9; 3]; [6; 15]]))
                    (PyNdarray (Array1 [100; 50])) 30 0 (1/4) = Ok m0 /\
    item (fuel_cost m0) 1 = 0.
Proof.
  destruct (nearest_metrics_fuel_co2
              (Array2 2 [[3; 1]; [2; 5]]) (Array2 2 [[6; 2]; [4; 10]])
              (Array2 2 [[9; 3]; [6; 15]]) [100; 50] 2 2 2 2 30 (1/5) (1/4))
    as (_ & m0 & Heq & Hz);
    try (simpl; repeat constructor); try lia.
  exists m0. split; [exact Heq |]. apply (Hz 1%nat). lia.
Defined.

(** C10: nearest_metrics raises TypeError, and computes nothing, as soon as
    one of dist_miles, car_time_min, pt_time_min and monthly_referrals is not
    a numpy array. *)
Theorem nearest_metrics_type_error
    (dist_miles car_time_min pt_time_min monthly_referrals : pyobj)
    (car_speed_mph fuel_cost_per_mile co2_per_mile : R) :
  forallb isinstance_ndarray [dist_miles; car_time_min; pt_time_min; monthly_referrals] = false ->
  nearest_metrics dist_miles car_time_min pt_time_min monthly_referrals
                  car_speed_mph fuel_cost_per_mile co2_per_mile
  = Raise (TypeError "Inputs must be numpy arrays").
Proof.
  intro H.
  destruct dist_miles, car_time_min, pt_time_min, monthly_referrals;
    simpl in H; try discriminate H; reflexivity.
Qed.

Lemma nearest_metrics_type_error_witness :
  nearest_metrics (PyNdarray (Array2 1 [[3]])) (PyNdarray (Array2 1 [[6]]))
                  (PyNdarray (Array2 1 [[9]])) (PyList [[100]]) 30 (1/5) (1/4)
  = Raise (TypeError "Inputs must be numpy arrays").
Proof.
  apply nearest_metrics_type_error. reflexivity.
Defined.

(** ** Sums *)

Lemma sum_upto_S (n : nat) (F : nat -> R) :
  sum_upto (S n) F = F 0%nat + sum_upto n (fun i => F (S i)).
Proof.
  unfold sum_upto. cbn [seq map sum_list fold_right].
  now rewrite <- seq_shift, map_map.
Qed.

Lemma sum_upto_ext (n : nat) (F G : nat -> R) :
  (forall i, (i < n)%nat -> F i = G i) -> sum_upto n F = sum_upto n G.
Proof.
  intro H. unfold sum_upto. f_equal. apply map_ext_in.
  intros i Hi. apply in_seq in Hi. apply H. lia.
Qed.

Lemma sum_list_zipWith (f : R -> R -> R) (la lb : list R) :
  length la = length lb ->
  sum_list (zipWith f la lb) = sum_upto (length la) (fun i => f (nth i la 0) (nth i lb 0)).
Proof.
  revert lb. induction la as [| a la IH]; intros [| b lb] H; simpl in H; try discriminate H.
  - reflexivity.
  - cbn [length]. rewrite sum_upto_S. cbn [zipWith sum_list fold_right nth].
    f_equal. apply IH. congruence.
Qed.

Lemma sum_list_cons (x : R) (l : list R) : sum_list (x :: l) = x + sum_list l.
Proof. reflexivity. Qed.

Lemma sum_list_map_plus {A : Type} (F G : A -> R) (l : list A) :
  sum_list (map (fun x => F x + G x) l) = sum_list (map F l) + sum_list (map G l).
Proof.
  induction l as [| x l IH]; cbn [map]; [unfold sum_list; simpl; lra |].
  rewrite !sum_list_cons, IH. lra.
Qed.

(** ** Results of comprehensions and of column selection *)

Lemma comprehension_ok {A B : Type} (f : A -> result B) (g : A -> B) (l : list A) :
  (forall x, In x l -> f x = Ok (g x)) -> comprehension f l = Ok (map g l).
Proof.
  induction l as [| x l IH]; intro H; simpl; [reflexivity |].
  rewrite (H x) by now left. cbn [bind].
  rewrite IH by (intros y Hy; apply H; now right). reflexivity.
Qed.

Lemma column_ok (m : nat) (rows : list (list R)) (k : nat) :
  (k < m)%nat -> column (Array2 m rows) k = Ok (map (fun r => nth k r 0) rows).
Proof.
  intro H. unfold column. destruct (Nat.ltb_spec k m); [reflexivity | lia].
Qed.

Lemma nth_column (rows : list (list R)) (i j : nat) :
  nth i (map (fun r => nth j r 0) rows) 0 = nth j (nth i rows []) 0.
Proof.
  destruct (Nat.lt_ge_cases i (length rows)) as [Hi | Hi].
  - rewrite (nth_indep _ 0 ((fun r => nth j r 0) [])) by now rewrite length_map.
    exact (map_nth (fun r => nth j r 0) rows [] i).
  - rewrite (nth_overflow (map _ rows)) by (rewrite length_map; lia).
    rewrite (nth_overflow rows) by lia. now destruct j.
Qed.

(** The referral-weighted total time to site [j], as the program computes it. *)
Lemma weighted_column_sum (m : nat) (rows : list (list R)) (gp_df : dataframe) (j : nat) :
  (j < m)%nat -> length rows = length gp_df ->
  (c <- column (Array2 m rows) j ;;
   w <- np_mul (Array1 c) (referrals gp_df) ;;
   Ok (np_sum w))
  = Ok (sum_upto (length gp_df)
          (fun i => entry (Array2 m rows) i j * nth i (map Referrals gp_df) 0)).
Proof.
  intros Hj Hlen. rewrite column_ok by assumption. cbn [bind].
  unfold np_mul, referrals. rewrite np_binop_vectors by now rewrite !length_map.
  cbn [bind np_sum]. rewrite sum_list_zipWith by now rewrite !length_map.
  rewrite length_map, Hlen. f_equal. apply sum_upto_ext. intros i _.
  unfold entry. now rewrite nth_column.
Qed.

(** ** First position of the row minimum *)

Lemma argmin_from_spec (xs pre : list R) (best : R) (bi : nat) :
  (bi < length pre)%nat -> nth bi pre 0 = best ->
  (forall y, In y pre -> best <= y) ->
  (forall j, (j < bi)%nat -> best < nth j pre 0) ->
  let k := argmin_from best bi (length pre) xs in
  (k < length pre + length xs)%nat /\
  (forall y, In y (pre ++ xs) -> nth k (pre ++ xs) 0 <= y) /\
  (forall j, (j < k)%nat -> nth k (pre ++ xs) 0 < nth j (pre ++ xs) 0).
Proof.
  revert pre best bi. induction xs as [| x xs IH]; intros pre best bi Hbi Hbest Hmin Hfirst.
  - cbn [argmin_from length]. rewrite app_nil_r, Hbest. repeat split; [lia | exact Hmin | exact Hfirst].
  - cbn [argmin_from]. unfold Rltb.
    assert (Hlen : length (pre ++ [x]) = S (length pre)) by (rewrite length_app; simpl; lia).
    assert (Happ : (pre ++ [x]) ++ xs = pre ++ x :: xs) by (rewrite <- app_assoc; reflexivity).
    destruct (Rlt_dec x best) as [Hlt | Hge].
    + specialize (IH (pre ++ [x]) x (length pre)).
      rewrite Hlen, Happ in IH. cbn [length]. rewrite Nat.add_succ_r.
      apply IH.
      * lia.
      * rewrite app_nth2 by lia. now rewrite Nat.sub_diag.
      * intros y Hy. apply in_app_or in Hy as [Hy | [<- | []]]; [| lra].
        specialize (Hmin y Hy). lra.
      * intros j Hj. rewrite app_nth1 by lia.
        assert (best <= nth j pre 0) by (apply Hmin, nth_In; lia). lra.
    + specialize (IH (pre ++ [x]) best bi).
      rewrite Hlen, Happ in IH. cbn [length]. rewrite Nat.add_succ_r.
      apply IH.
      * lia.
      * now rewrite app_nth1 by lia.
      * intros y Hy. apply in_app_or in Hy as [Hy | [<- | []]]; [now apply Hmin | lra].
      * intros j Hj. rewrite app_nth1 by lia. now apply Hfirst.
Qed.

Lemma row_argmin_spec (r : list R) :
  r <> [] ->
  (row_argmin r < length r)%nat /\
  (forall y, In y r -> nth (row_argmin r) r 0 <= y) /\
  (forall j, (j < row_argmin r)%nat -> nth (row_argmin r) r 0 < nth j r 0).
Proof.
  destruct r as [| x xs]; [congruence | intros _].
  apply (argmin_from_spec xs [x] x 0).
  - simpl; lia.
  - reflexivity.
  - intros y [<- | []]. lra.
  - intros j Hj. lia.
Qed.

(** ** The partition of referrals over sites *)

Lemma assigned_to_cons (j k : nat) (idx : list nat) (r : R) (refs : list R) :
  assigned_to j (k :: idx) (r :: refs)
  = (if Nat.eqb k j then r else 0) + assigned_to j idx refs.
Proof.
  unfold assigned_to. cbn [map combine filter fst].
  destruct (Nat.eqb k j); cbn [map snd]; rewrite ?sum_list_cons; lra.
Qed.

Lemma assigned_to_indicator (j : nat) (idx : list nat) (refs : list R) :
  length idx = length refs ->
  assigned_to j idx refs
  = sum_upto (length idx) (fun i => if Nat.eqb (nth i idx 0%nat) j then nth i refs 0 else 0).
Proof.
  revert refs. induction idx as [| k idx IH]; intros [| r refs] H; simpl in H; try discriminate H.
  - reflexivity.
  - rewrite assigned_to_cons. cbn [length]. rewrite sum_upto_S. cbn [nth].
    f_equal. apply IH. congruence.
Qed.

Lemma indicator_sum_out (k : nat) (r : R) (a m : nat) :
  (k < a)%nat -> sum_list (map (fun j => if Nat.eqb k j then r else 0) (seq a m)) = 0.
Proof.
  revert a. induction m as [| m IH]; intros a Hk; cbn [seq map]; [reflexivity |].
  rewrite sum_list_cons, IH by lia.
  destruct (Nat.eqb_spec k a); [lia | lra].
Qed.

Lemma indicator_sum_in (k : nat) (r : R) (a m : nat) :
  (a <= k < a + m)%nat -> sum_list (map (fun j => if Nat.eqb k j then r else 0) (seq a m)) = r.
Proof.
  revert a. induction m as [| m IH]; intros a Hk; [lia |]. cbn [seq map].
  rewrite sum_list_cons.
  destruct (Nat.eqb_spec k a) as [-> | Hne].
  - rewrite indicator_sum_out by lia. lra.
  - rewrite IH by lia. lra.
Qed.

Lemma assigned_partition (m : nat) (idx : list nat) (refs : list R) :
  length idx = length refs -> Forall (fun k => (k < m)%nat) idx ->
  sum_list (map (fun j => assigned_to j idx refs) (seq 0 m)) = sum_list refs.
Proof.
  revert refs. induction idx as [| k idx IH]; intros [| r refs] Hlen Hall;
    simpl in Hlen; try discriminate Hlen.
  - induction (seq 0 m) as [| j l IHl]; cbn [map]; [reflexivity |].
    rewrite sum_list_cons, IHl. unfold assigned_to, sum_list. simpl. lra.
  - inversion Hall as [| ? ? Hk Hall']; subst.
    rewrite (map_ext _ (fun j => (if Nat.eqb k j then r else 0) + assigned_to j idx refs))
      by (intro j; apply assigned_to_cons).
    rewrite sum_list_map_plus, indicator_sum_in by lia.
    rewrite IH by (congruence || assumption). reflexivity.
Qed.

(** ** hospital_summary *)

Lemma hospital_summary_table (m mp : nat) (rc rp : list (list R))
    (gp_df hospital_df : dataframe) :
  (0 < m)%nat -> length hospital_df = m -> (m <= mp)%nat ->
  length rc = length gp_df -> length rp = length gp_df ->
  hospital_summary (Array2 m rc) (Array2 mp rp) gp_df hospital_df
  = Ok (Summary
          (map Description hospital_df)
          (map (fun j => assigned_to j (map row_argmin rc) (map Referrals gp_df)) (seq 0 m))
          (map (fun j => sum_upto (length gp_df)
                           (fun i => entry (Array2 m rc) i j * nth i (map Referrals gp_df) 0))
               (seq 0 m))
          (map (fun j => sum_upto (length gp_df)
                           (fun i => entry (Array2 mp rp) i j * nth i (map Referrals gp_df) 0))
               (seq 0 m))).
Proof.
  intros Hm Hh Hmp Hlc Hlp.
  unfold hospital_summary, nearest_hospital_index, np_argmin_axis1.
  destruct (Nat.eqb_spec m 0); [lia |]. cbn [bind]. rewrite Hh.
  rewrite (comprehension_ok _
             (fun j => assigned_to j (map row_argmin rc) (map Referrals gp_df))).
  2:{ intros j _. unfold loc_mask. rewrite !length_map, Hlc, Nat.eqb_refl. reflexivity. }
  cbn [bind].
  rewrite (comprehension_ok _
             (fun j => sum_upto (length gp_df)
                (fun i => entry (Array2 m rc) i j * nth i (map Referrals gp_df) 0))).
  2:{ intros j Hj. apply in_seq in Hj. apply weighted_column_sum; [lia | assumption]. }
  cbn [bind].
  rewrite (comprehension_ok _
             (fun j => sum_upto (length gp_df)
                (fun i => entry (Array2 mp rp) i j * nth i (map Referrals gp_df) 0))).
  2:{ intros j Hj. apply in_seq in Hj. apply weighted_column_sum; [lia | assumption]. }
  reflexivity.
Qed.

Lemma nth_map_seq (F : nat -> R) (m j : nat) :
  (j < m)%nat -> nth j (map F (seq 0 m)) 0 = F j.
Proof.
  intro Hj. rewrite (nth_indep _ 0 (F 0%nat)) by now rewrite length_map, length_seq.
  rewrite (map_nth F (seq 0 m) 0%nat j), seq_nth by assumption. reflexivity.
Qed.

(** C3: with at least one site, every demand point is assigned, by the first
    position of the minimum of its car-time row, to exactly one site, and the
    assigned referrals summed over the sites equal the referrals summed over
    the demand points. *)
Theorem hospital_summary_partition
    (car_time pt_time : ndarray) (gp_df hospital_df : dataframe) (n m : nat) :
  has_shape car_time n m -> has_shape pt_time n m ->
  length gp_df = n -> length hospital_df = m -> (0 < m)%nat ->
  exists idx hs,
    nearest_hospital_index car_time = Ok idx /\
    hospital_summary car_time pt_time gp_df hospital_df = Ok hs /\
    length idx = n /\
    length (Total_Referrals_Assigned hs) = m /\
    (forall i, (i < n)%nat ->
       (forall j, (j < m)%nat -> entry car_time i (nth i idx 0%nat) <= entry car_time i j) /\
       (forall j, (j < nth i idx 0%nat)%nat ->
          entry car_time i (nth i idx 0%nat) < entry car_time i j) /\
       exists! j, (j < m)%nat /\ Nat.eqb (nth i idx 0%nat) j = true) /\
    (forall j, (j < m)%nat ->
       nth j (Total_Referrals_Assigned hs) 0
       = sum_upto n (fun i => if Nat.eqb (nth i idx 0%nat) j
                              then nth i (map Referrals gp_df) 0 else 0)) /\
    sum_list (Total_Referrals_Assigned hs) = sum_list (map Referrals gp_df).
Proof.
  intros Hc Hp Hgp Hh Hm.
  shape_inv Hc rc Hlc Hac. shape_inv Hp rp Hlp Hap.
  assert (Hrow : forall i, (i < n)%nat ->
            (row_argmin (nth i rc []) < m)%nat /\
            (forall j, (j < m)%nat ->
               nth (row_argmin (nth i rc [])) (nth i rc []) 0 <= nth j (nth i rc []) 0) /\
            (forall j, (j < row_argmin (nth i rc []))%nat ->
               nth (row_argmin (nth i rc [])) (nth i rc []) 0 < nth j (nth i rc []) 0)).
  { intros i Hi.
    assert (Hlen : length (nth i rc []) = m) by (apply nth_row_length; [assumption | lia]).
    destruct (row_argmin_spec (nth i rc [])) as (Hlt & Hle & Hfirst).
    - intro E. rewrite E in Hlen. simpl in Hlen. lia.
    - split; [lia |]. split; [| exact Hfirst]. intros j Hj. apply Hle, nth_In. lia. }
  assert (Hidx : forall i, nth i (map row_argmin rc) 0%nat = row_argmin (nth i rc [])).
  { intro i. exact (map_nth row_argmin rc [] i). }
  exists (map row_argmin rc). eexists.
  split; [unfold nearest_hospital_index, np_argmin_axis1;
          destruct (Nat.eqb_spec m 0); [lia | reflexivity] |].
  split; [apply hospital_summary_table; (lia || congruence) |].
  cbn [Total_Referrals_Assigned].
  split; [rewrite length_map; congruence |].
  split; [now rewrite length_map, length_seq |].
  split; [| split].
  - intros i Hi. rewrite Hidx. destruct (Hrow i Hi) as (Hlt & Hle & Hfirst).
    split; [exact Hle |]. split; [exact Hfirst |].
    exists (row_argmin (nth i rc [])). split.
    + split; [exact Hlt | apply Nat.eqb_refl].
    + intros j [_ Hj]. now apply Nat.eqb_eq in Hj.
  - intros j Hj. rewrite (nth_map_seq _ m j Hj).
    rewrite assigned_to_indicator by (rewrite !length_map; congruence).
    rewrite length_map, Hlc. reflexivity.
  - apply assigned_partition.
    + rewrite !length_map. congruence.
    + apply Forall_forall. intros k Hk.
      destruct (In_nth _ _ 0%nat Hk) as (i & Hi & <-).
      rewrite length_map in Hi. rewrite Hidx. apply Hrow. lia.
Qed.

Lemma hospital_summary_partition_witness :
  exists hs,
    hospital_summary (Array2 2 [[6; 2]; [4; 10]; [1; 1]]) (Array2 2 [[9; 3]; [6; 15]; [2; 2]])
      [Place "GP A" 51.50 (-0.10) 100; Place "GP B" 51.52 (-0.12) 50;
       Place "GP C" 51.53 (-0.13) 7]
      [Place "Site 1" 51.51 (-0.11) 0; Place "Site 2" 51.60 (-0.20) 0] = Ok hs /\
    sum_list (Total_Referrals_Assigned hs) = sum_list [100; 50; 7].
Proof.
  destruct (hospital_summary_partition
              (Array2 2 [[6; 2]; [4; 10]; [1; 1]]) (Array2 2 [[9; 3]; [6; 15]; [2; 2]])
              [Place "GP A" 51.50 (-0.10) 100; Place "GP B" 51.52 (-0.12) 50;
               Place "GP C" 51.53 (-0.13) 7]
              [Place "Site 1" 51.51 (-0.11) 0; Place "Site 2" 51.60 (-0.20) 0] 3 2)
    as (idx & hs & _ & Heq & _ & _ & _ & _ & Hsum);
    try (simpl; repeat constructor); try lia.
  exists hs. split; [exact Heq | exact Hsum].
Defined.

(** C4: the total weighted demand of site j, by car and by public transport,
    is the sum over all demand points i of (time from i to j) * referrals[i];
    the nearest-site assignment plays no part in it. *)
Theorem hospital_summary_total_weighted_demand
    (car_time pt_time : ndarray) (gp_df hospital_df : dataframe) (n m : nat) :
  has_shape car_time n m -> has_shape pt_time n m ->
  length gp_df = n -> length hospital_df = m -> (0 < m)%nat ->
  exists hs,
    hospital_summary car_time pt_time gp_df hospital_df = Ok hs /\
    length (Total_Weighted_Demand_Car hs) = m /\
    length (Total_Weighted_Demand_PT hs) = m /\
    forall j, (j < m)%nat ->
      nth j (Total_Weighted_Demand_Car hs) 0
      = sum_upto n (fun i => entry car_time i j * nth i (map Referrals gp_df) 0) /\
      nth j (Total_Weighted_Demand_PT hs) 0
      = sum_upto n (fun i => entry pt_time i j * nth i (map Referrals gp_df) 0).
Proof.
  intros Hc Hp Hgp Hh Hm.
  shape_inv Hc rc Hlc Hac. shape_inv Hp rp Hlp Hap.
  eexists. split; [apply hospital_summary_table; (lia || congruence) |].
  cbn [Total_Weighted_Demand_Car Total_Weighted_Demand_PT].
  rewrite !length_map, !length_seq. repeat split.
  - rewrite (nth_map_seq _ m j) by assumption. now rewrite Hgp.
  - rewrite (nth_map_seq _ m j) by assumption. now rewrite Hgp.
Qed.

Lemma hospital_summary_total_weighted_demand_witness :
  exists hs,
    hospital_summary (Array2 2 [[6; 2]; [4; 10]]) (Array2 2 [[9; 3]; [6; 15]])
      [Place "GP A" 51.50 (-0.10) 100; Place "GP B" 51.52 (-0.12) 50]
      [Place "Site 1" 51.51 (-0.11) 0; Place "Site 2" 51.60 (-0.20) 0] = Ok hs /\
    nth 1 (Total_Weighted_Demand_Car hs) 0 = 700.
Proof.
  destruct (hospital_summary_total_weighted_demand
              (Array2 2 [[6; 2]; [4; 10]]) (Array2 2 [[9; 3]; [6; 15]])
              [Place "GP A" 51.50 (-0.10) 100; Place "GP B" 51.52 (-0.12) 50]
              [Place "Site 1" 51.51 (-0.11) 0; Place "Site 2" 51.60 (-0.20) 0] 2 2)
    as (hs & Heq & _ & _ & Hd);
    try (simpl; repeat constructor); try lia.
  exists hs. split; [exact Heq |].
  destruct (Hd 1%nat) as [Hcar _]; [lia |]. rewrite Hcar.
  unfold sum_upto, sum_list. simpl. lra.
Defined.

(** ** Improvement over the single-site baseline *)

Lemma baseline_weighted_car_total (m : nat) (rows : list (list R)) (gp_df : dataframe) :
  (0 < m)%nat -> length rows = length gp_df ->
  exists bw,
    baseline_weighted_car (Array2 m rows) gp_df = Ok bw /\
    np_sum bw = baseline_total (Array2 m rows) gp_df.
Proof.
  intros Hm Hlen. unfold baseline_weighted_car, baseline_car.
  rewrite column_ok by assumption. cbn [bind].
  unfold np_mul, referrals. rewrite np_binop_vectors by now rewrite !length_map.
  eexists. split; [reflexivity |].
  cbn [np_sum]. rewrite sum_list_zipWith by now rewrite !length_map.
  rewrite length_map, Hlen. unfold baseline_total. apply sum_upto_ext. intros i _.
  unfold entry. rewrite nth_column. apply Rmult_comm.
Qed.

Lemma improvement_car_pct_cases (m : nat) (rows : list (list R)) (gp_df : dataframe)
    (weighted : ndarray) :
  (0 < m)%nat -> length rows = length gp_df ->
  improvement_car_pct (Array2 m rows) gp_df weighted
  = if Rltb 0 (baseline_total (Array2 m rows) gp_df)
    then Ok ((baseline_total (Array2 m rows) gp_df - np_sum weighted)
             / baseline_total (Array2 m rows) gp_df * 100)
    else Ok 0.
Proof.
  intros Hm Hlen. unfold improvement_car_pct.
  destruct (baseline_weighted_car_total m rows gp_df Hm Hlen) as (bw & -> & Hsum).
  cbn [bind]. now rewrite Hsum.
Qed.

(** C5: for the car mode and for the public-transport mode, the improvement
    percentage is (baseline_total - scenario_total) / baseline_total * 100
    when baseline_total, the referral-weighted total time to the first site,
    is positive, and is 0 when baseline_total is 0. *)
Theorem improvement_pct_policy
    (car_time pt_time : ndarray) (gp_df : dataframe) (weighted_car weighted_pt : ndarray)
    (n mc mp : nat) :
  has_shape car_time n mc -> has_shape pt_time n mp ->
  (0 < mc)%nat -> (0 < mp)%nat -> length gp_df = n ->
  let baseline_total_car := baseline_total car_time gp_df in
  let baseline_total_pt := baseline_total pt_time gp_df in
  let total_weighted_car := np_sum weighted_car in
  let total_weighted_pt := np_sum weighted_pt in
  (0 < baseline_total_car ->
   improvement_car_pct car_time gp_df weighted_car
   = Ok ((baseline_total_car - total_weighted_car) / baseline_total_car * 100)) /\
  (baseline_total_car = 0 -> improvement_car_pct car_time gp_df weighted_car = Ok 0) /\
  (0 < baseline_total_pt ->
   improvement_pt_pct pt_time gp_df weighted_pt
   = Ok ((baseline_total_pt - total_weighted_pt) / baseline_total_pt * 100)) /\
  (baseline_total_pt = 0 -> improvement_pt_pct pt_time gp_df weighted_pt = Ok 0).
Proof.
  intros Hc Hp Hmc Hmp Hgp.
  shape_inv Hc rc Hlc Hac. shape_inv Hp rp Hlp Hap.
  intros btc btp twc twp.
  change (improvement_pt_pct (Array2 mp rp) gp_df weighted_pt)
    with (improvement_car_pct (Array2 mp rp) gp_df weighted_pt).
  rewrite !improvement_car_pct_cases by (assumption || congruence).
  fold btc btp twc twp.
  repeat split; intro H.
  - now rewrite Rltb_true.
  - now rewrite Rltb_false by lra.
  - now rewrite Rltb_true.
  - now rewrite Rltb_false by lra.
Qed.

Lemma improvement_pct_policy_witness :
  improvement_car_pct (Array2 2 [[6; 2]; [4; 10]])
    [Place "GP A" 51.50 (-0.10) 100; Place "GP B" 51.52 (-0.12) 50] (Array1 [200; 200])
  = Ok ((800 - 400) / 800 * 100) /\
  improvement_pt_pct (Array2 2 [[9; 3]; [6; 15]])
    [Place "GP A" 51.50 (-0.10) 0; Place "GP B" 51.52 (-0.12) 0] (Array1 [0; 0])
  = Ok 0.
Proof.
  split.
  - destruct (improvement_pct_policy
                (Array2 2 [[6; 2]; [4; 10]]) (Array2 2 [[9; 3]; [6; 15]])
                [Place "GP A" 51.50 (-0.10) 100; Place "GP B" 51.52 (-0.12) 50]
                (Array1 [200; 200]) (Array1 [300; 300]) 2 2 2)
      as (Hpos & _);
      try (simpl; repeat constructor); try lia.
    assert (Hb : baseline_total (Array2 2 [[6; 2]; [4; 10]])
                   [Place "GP A" 51.50 (-0.10) 100; Place "GP B" 51.52 (-0.12) 50] = 800).
    { unfold baseline_total, sum_upto, sum_list. simpl. lra. }
    rewrite Hpos by (rewrite Hb; lra). rewrite Hb.
    f_equal. unfold np_sum, sum_list. simpl. lra.
  - destruct (improvement_pct_policy
                (Array2 2 [[6; 2]; [4; 10]]) (Array2 2 [[9; 3]; [6; 15]])
                [Place "GP A" 51.50 (-0.10) 0; Place "GP B" 51.52 (-0.12) 0]
                (Array1 [0; 0]) (Array1 [0; 0]) 2 2 2)
      as (_ & _ & _ & Hzero);
      try (simpl; repeat constructor); try lia.
    apply Hzero. unfold baseline_total, sum_upto, sum_list. simpl. lra.
Defined.

(** ** Input validation of compute_distance_time *)

(** C9 as stated fails: a coordinate array with no row passes the validation
    and the matrices are returned, with no row for an empty demand set and no
    column for an empty site set; with no demand point nearest_metrics
    returns empty arrays as well. *)
Lemma compute_distance_time_accepts_empty_sets :
  compute_distance_time (Array2 2 []) (Array2 2 [[51.51; -0.11]]) 40 25
  = Ok (Array2 1 [], Array2 1 [], Array2 1 []) /\
  compute_distance_time (Array2 2 [[51.50; -0.10]]) (Array2 2 []) 40 25
  = Ok (Array2 0 [[]], Array2 0 [[]], Array2 0 [[]]) /\
  nearest_metrics (PyNdarray (Array2 1 [])) (PyNdarray (Array2 1 [])) (PyNdarray (Array2 1 []))
                  (PyNdarray (Array1 [])) 40 (1/5) (1/4)
  = Ok (Metrics (Array1 []) (Array1 []) (Array1 []) (Array1 []) (Array1 [])
                (Array1 []) (Array1 []) (Array1 [])).
Proof.
  split; [| split].
  - rewrite compute_distance_time_table by lra. reflexivity.
  - rewrite compute_distance_time_table by lra. reflexivity.
  - reflexivity.
Qed.

(** C9, amended: compute_distance_time raises ValueError, before anything is
    computed, when a coordinate array is not two-dimensional with two columns
    or a speed is not positive; otherwise, for n demand points and m sites,
    n and m possibly zero, it returns three matrices of shape (n, m). *)
Theorem compute_distance_time_validation
    (gp_coords hosp_coords : ndarray) (car_speed_mph pt_speed_mph : R) :
  (ndim gp_coords <> 2%nat \/ nth 1 (shape gp_coords) 0%nat <> 2%nat \/
   ndim hosp_coords <> 2%nat \/ nth 1 (shape hosp_coords) 0%nat <> 2%nat \/
   car_speed_mph <= 0 \/ pt_speed_mph <= 0 ->
   exists msg,
     compute_distance_time gp_coords hosp_coords car_speed_mph pt_speed_mph
     = Raise (ValueError msg)) /\
  (forall n m,
     shape gp_coords = [n; 2%nat] -> shape hosp_coords = [m; 2%nat] ->
     0 < car_speed_mph -> 0 < pt_speed_mph ->
     exists dist_miles car_time_min pt_time_min,
       compute_distance_time gp_coords hosp_coords car_speed_mph pt_speed_mph
       = Ok (dist_miles, car_time_min, pt_time_min) /\
       has_shape dist_miles n m /\ has_shape car_time_min n m /\ has_shape pt_time_min n m).
Proof.
  split.
  - intro H. unfold compute_distance_time.
    destruct (Nat.eqb_spec (ndim gp_coords) 2) as [Hg1 | Hg1]; cbn [negb orb];
      [| eexists; reflexivity].
    destruct (Nat.eqb_spec (nth 1 (shape gp_coords) 0%nat) 2) as [Hg2 | Hg2]; cbn [negb];
      [| eexists; reflexivity].
    destruct (Nat.eqb_spec (ndim hosp_coords) 2) as [Hh1 | Hh1]; cbn [negb orb];
      [| eexists; reflexivity].
    destruct (Nat.eqb_spec (nth 1 (shape hosp_coords) 0%nat) 2) as [Hh2 | Hh2]; cbn [negb];
      [| eexists; reflexivity].
    unfold Rleb.
    destruct (Rle_dec car_speed_mph 0) as [Hc | Hc]; cbn [orb]; [eexists; reflexivity |].
    destruct (Rle_dec pt_speed_mph 0) as [Hp | Hp]; [eexists; reflexivity |].
    exfalso. tauto.
  - intros n m Hg Hh Hcar Hpt.
    destruct gp_coords as [v | mg gp]; simpl in Hg; [discriminate Hg |].
    destruct hosp_coords as [v | mh hosp]; simpl in Hh; [discriminate Hh |].
    injection Hg as <- ->. injection Hh as <- ->.
    do 3 eexists. split; [apply compute_distance_time_table; assumption |].
    repeat split; try apply tab_length; apply tab_rectangular.
Qed.

Lemma compute_distance_time_validation_witness :
  (exists msg,
     compute_distance_time (Array2 2 [[51.50; -0.10]]) (Array2 2 [[51.51; -0.11]]) 0 25
     = Raise (ValueError msg)) /\
  (exists dist_miles car_time_min pt_time_min,
     compute_distance_time (Array2 2 []) (Array2 2 [[51.51; -0.11]]) 40 25
     = Ok (dist_miles, car_time_min, pt_time_min) /\
     has_shape dist_miles 0 1).
Proof.
  split.
  - apply (proj1 (compute_distance_time_validation
                    (Array2 2 [[51.50; -0.10]]) (Array2 2 [[51.51; -0.11]]) 0 25)).
    right; right; right; right; left. lra.
  - destruct (proj2 (compute_distance_time_validation
                       (Array2 2 []) (Array2 2 [[51.51; -0.11]]) 40 25) 0%nat 1%nat)
      as (d & c & p & Heq & Hd & _); try reflexivity; try lra.
    exists d, c, p. split; assumption.
Defined.

(** ** The two engine calls in sequence

    On the output of [compute_distance_time] for at least one site,
    [nearest_metrics] returns, and the nearest car time is the nearest
    distance rescaled by the car speed. *)
Lemma nearest_metrics_after_compute_distance_time
    (gp hosp : list (list R)) (monthly_referrals : list R)
    (car_speed_mph pt_speed_mph fuel_cost_per_mile co2_per_mile : R) :
  0 < car_speed_mph -> 0 < pt_speed_mph -> hosp <> [] ->
  length monthly_referrals = length gp ->
  exists dist_miles car_time_min pt_time_min m,
    compute_distance_time (Array2 2 gp) (Array2 2 hosp) car_speed_mph pt_speed_mph
    = Ok (dist_miles, car_time_min, pt_time_min) /\
    nearest_metrics (PyNdarray dist_miles) (PyNdarray car_time_min) (PyNdarray pt_time_min)
                    (PyNdarray (Array1 monthly_referrals))
                    car_speed_mph fuel_cost_per_mile co2_per_mile = Ok m /\
    forall i, (i < length gp)%nat ->
      item (nearest_car_time m) i = item (nearest_dist m) i / car_speed_mph * 60.
Proof.
  intros Hcar Hpt Hne Hrefs.
  assert (Hm : (0 < length hosp)%nat) by (destruct hosp; [congruence | simpl; lia]).
  set (D := tab (fun g h => great_circle_miles (nth 0 g 0) (nth 1 g 0) (nth 0 h 0) (nth 1 h 0))
                gp hosp).
  exists (Array2 (length hosp) D),
         (np_map (fun d => d / car_speed_mph * 60) (Array2 (length hosp) D)),
         (np_map (fun d => d / pt_speed_mph * 60) (Array2 (length hosp) D)).
  eexists. split; [| split].
  - rewrite compute_distance_time_table by assumption. unfold D.
    now rewrite !np_map_tab.
  - cbn [np_map]. apply nearest_metrics_arrays;
      rewrite ?length_map; unfold D; rewrite ?tab_length; (assumption || congruence).
  - intros i Hi. cbn [nearest_dist nearest_car_time].
    rewrite !item_map_row_min.
    apply (row_min_rescaled D (length hosp) i); unfold D;
      try apply tab_rectangular; rewrite ?tab_length; assumption.
Qed.

(** ** The haversine formula: zero, symmetry and bounds *)

Lemma asin_nonneg (x : R) : 0 <= x -> 0 <= asin x.
Proof.
  intro Hx. unfold asin.
  destruct (Rle_dec x (-1)) as [H | _]; [lra |].
  destruct (Rle_dec 1 x) as [_ | H1]; [pose proof PI_RGT_0; lra |].
  assert (Hs : 0 < sqrt (1 - x²)) by (apply sqrt_lt_R0; unfold Rsqr; nra).
  destruct (Req_dec_T x 0) as [-> | Hne].
  - unfold Rdiv. rewrite Rmult_0_l, atan_0. lra.
  - left. rewrite <- atan_0. apply atan_increasing.
    apply Rdiv_lt_0_compat; lra.
Qed.

Lemma great_circle_miles_self (lat lon : R) : great_circle_miles lat lon lat lon = 0.
Proof.
  unfold great_circle_miles. cbv zeta.
  replace ((lat * (PI / 180) - lat * (PI / 180)) / 2) with 0 by lra.
  replace ((lon * (PI / 180) - lon * (PI / 180)) / 2) with 0 by lra.
  rewrite sin_0.
  replace (0 ^ 2 + cos (lat * (PI / 180)) * cos (lat * (PI / 180)) * 0 ^ 2) with 0 by ring.
  rewrite sqrt_0, asin_0. ring.
Qed.

Lemma sin_half_diff_sqr (a b : R) : sin ((a - b) / 2) ^ 2 = sin ((b - a) / 2) ^ 2.
Proof.
  replace ((a - b) / 2) with (- ((b - a) / 2)) by lra.
  rewrite sin_neg. ring.
Qed.

Lemma great_circle_miles_sym (lat1 lon1 lat2 lon2 : R) :
  great_circle_miles lat1 lon1 lat2 lon2 = great_circle_miles lat2 lon2 lat1 lon1.
Proof.
  unfold great_circle_miles. cbv zeta.
  rewrite (sin_half_diff_sqr (lat2 * (PI / 180)) (lat1 * (PI / 180))).
  rewrite (sin_half_diff_sqr (lon2 * (PI / 180)) (lon1 * (PI / 180))).
  rewrite (Rmult_comm (cos (lat1 * (PI / 180))) (cos (lat2 * (PI / 180)))).
  reflexivity.
Qed.

Lemma great_circle_miles_bounds (lat1 lon1 lat2 lon2 : R) :
  0 <= great_circle_miles lat1 lon1 lat2 lon2 <= 3959 * PI.
Proof.
  unfold great_circle_miles. cbv zeta.
  set (hav := sin _ ^ 2 + _).
  pose proof (asin_nonneg (sqrt hav) (sqrt_pos hav)) as Hlo.
  pose proof (asin_bound (sqrt hav)) as [_ Hhi].
  split; nra.
Qed.

Lemma rescale_nonneg (d speed : R) : 0 <= d -> 0 < speed -> 0 <= d / speed * 60.
Proof.
  intros Hd Hs. unfold Rdiv. pose proof (Rinv_0_lt_compat speed Hs). nra.
Qed.

Lemma compute_distance_time_pair_miles (gp hosp : list (list R)) (car_speed_mph pt_speed_mph : R) :
  0 < car_speed_mph -> 0 < pt_speed_mph ->
  compute_distance_time (Array2 2 gp) (Array2 2 hosp) car_speed_mph pt_speed_mph
  = Ok (Array2 (length hosp) (tab pair_miles gp hosp),
        Array2 (length hosp) (tab (fun g h => pair_miles g h / car_speed_mph * 60) gp hosp),
        Array2 (length hosp) (tab (fun g h => pair_miles g h / pt_speed_mph * 60) gp hosp)).
Proof. exact (compute_distance_time_table gp hosp car_speed_mph pt_speed_mph). Qed.

(** ** compute_distance_time: validation order, geometry and speeds *)

(** X1: the three checks run in the order gp_coords, hosp_coords, speeds, and
    the first one that fails decides the message, whatever the later
    arguments are. *)
Theorem compute_distance_time_first_failure
    (gp_coords hosp_coords : ndarray) (car_speed_mph pt_speed_mph : R) :
  (~ two_columns gp_coords ->
   compute_distance_time gp_coords hosp_coords car_speed_mph pt_speed_mph
   = Raise (ValueError "gp_coords must be (n_gps, 2) array")) /\
  (two_columns gp_coords -> ~ two_columns hosp_coords ->
   compute_distance_time gp_coords hosp_coords car_speed_mph pt_speed_mph
   = Raise (ValueError "hosp_coords must be (n_hospitals, 2) array")) /\
  (two_columns gp_coords -> two_columns hosp_coords ->
   car_speed_mph <= 0 \/ pt_speed_mph <= 0 ->
   compute_distance_time gp_coords hosp_coords car_speed_mph pt_speed_mph
   = Raise (ValueError "Speeds must be positive")).
Proof.
  unfold compute_distance_time, two_columns.
  destruct (Nat.eqb_spec (ndim gp_coords) 2) as [Hg1 | Hg1]; cbn [negb orb];
    [| repeat split; intros; try reflexivity; tauto].
  destruct (Nat.eqb_spec (nth 1 (shape gp_coords) 0%nat) 2) as [Hg2 | Hg2]; cbn [negb];
    [| repeat split; intros; try reflexivity; tauto].
  split; [tauto |].
  destruct (Nat.eqb_spec (ndim hosp_coords) 2) as [Hh1 | Hh1]; cbn [negb orb];
    [| repeat split; intros; try reflexivity; tauto].
  destruct (Nat.eqb_spec (nth 1 (shape hosp_coords) 0%nat) 2) as [Hh2 | Hh2]; cbn [negb];
    [| repeat split; intros; try reflexivity; tauto].
  split; [tauto |].
  intros _ _ Hspeed. unfold Rleb.
  destruct (Rle_dec car_speed_mph 0); cbn [orb]; [reflexivity |].
  destruct (Rle_dec pt_speed_mph 0); [reflexivity | lra].
Qed.

Lemma compute_distance_time_first_failure_witness :
  compute_distance_time (Array1 [51.50; -0.10]) (Array1 [51.51]) 0 0
  = Raise (ValueError "gp_coords must be (n_gps, 2) array") /\
  compute_distance_time (Array2 2 [[51.50; -0.10]]) (Array2 3 [[51.51; -0.11; 0]]) 0 0
  = Raise (ValueError "hosp_coords must be (n_hospitals, 2) array") /\
  compute_distance_time (Array2 2 [[51.50; -0.10]]) (Array2 2 [[51.51; -0.11]]) 40 0
  = Raise (ValueError "Speeds must be positive").
Proof.
  split; [| split].
  - apply (proj1 (compute_distance_time_first_failure
                    (Array1 [51.50; -0.10]) (Array1 [51.51]) 0 0)).
    unfold two_columns. simpl. intros [H _]. discriminate H.
  - apply (proj1 (proj2 (compute_distance_time_first_failure
                    (Array2 2 [[51.50; -0.10]]) (Array2 3 [[51.51; -0.11; 0]]) 0 0))).
    + split; reflexivity.
    + unfold two_columns. simpl. intros [_ H]. discriminate H.
  - apply (proj2 (proj2 (compute_distance_time_first_failure
                    (Array2 2 [[51.50; -0.10]]) (Array2 2 [[51.51; -0.11]]) 40 0))).
    + split; reflexivity.
    + split; reflexivity.
    + right. lra.
Defined.

(** X2: a site at the coordinates of a demand point is at distance 0 from
    it, and at car and public-transport time 0. *)
Theorem compute_distance_time_coincident
    (gp hosp : list (list R)) (car_speed_mph pt_speed_mph : R) (i j : nat) :
  0 < car_speed_mph -> 0 < pt_speed_mph ->
  (i < length gp)%nat -> (j < length hosp)%nat ->
  lat_of gp i = lat_of hosp j -> lon_of gp i = lon_of hosp j ->
  exists dist_miles car_time_min pt_time_min,
    compute_distance_time (Array2 2 gp) (Array2 2 hosp) car_speed_mph pt_speed_mph
    = Ok (dist_miles, car_time_min, pt_time_min) /\
    entry dist_miles i j = 0 /\ entry car_time_min i j = 0 /\ entry pt_time_min i j = 0.
Proof.
  intros Hcar Hpt Hi Hj Hlat Hlon. do 3 eexists.
  split; [apply compute_distance_time_pair_miles; assumption |].
  rewrite !(tab_entry _ _ _ _ _ _ [] []) by assumption.
  unfold pair_miles. fold (lat_of gp i) (lon_of gp i) (lat_of hosp j) (lon_of hosp j).
  rewrite Hlat, Hlon, great_circle_miles_self.
  repeat split; unfold Rdiv; ring.
Qed.

Lemma compute_distance_time_coincident_witness :
  exists dist_miles car_time_min pt_time_min,
    compute_distance_time (Array2 2 [[51.50; -0.10]; [51.52; -0.12]])
                          (Array2 2 [[51.51; -0.11]; [51.52; -0.12]]) 40 25
    = Ok (dist_miles, car_time_min, pt_time_min) /\
    entry dist_miles 1 1 = 0 /\ entry car_time_min 1 1 = 0 /\ entry pt_time_min 1 1 = 0.
Proof.
  apply (compute_distance_time_coincident
           [[51.50; -0.10]; [51.52; -0.12]] [[51.51; -0.11]; [51.52; -0.12]] 40 25 1 1);
    try lra; try (simpl; lia); reflexivity.
Defined.

(** X3: exchanging the two coordinate arrays transposes the three matrices:
    the distance and the times from i to j are those from j to i. *)
Theorem compute_distance_time_transpose
    (gp hosp : list (list R)) (car_speed_mph pt_speed_mph : R) :
  0 < car_speed_mph -> 0 < pt_speed_mph ->
  exists d c p d' c' p',
    compute_distance_time (Array2 2 gp) (Array2 2 hosp) car_speed_mph pt_speed_mph
    = Ok (d, c, p) /\
    compute_distance_time (Array2 2 hosp) (Array2 2 gp) car_speed_mph pt_speed_mph
    = Ok (d', c', p') /\
    forall i j, (i < length gp)%nat -> (j < length hosp)%nat ->
      entry d i j = entry d' j i /\ entry c i j = entry c' j i /\ entry p i j = entry p' j i.
Proof.
  intros Hcar Hpt. do 6 eexists.
  split; [apply compute_distance_time_pair_miles; assumption |].
  split; [apply compute_distance_time_pair_miles; assumption |].
  intros i j Hi Hj.
  rewrite !(tab_entry _ _ _ _ _ _ [] []) by assumption.
  unfold pair_miles. rewrite (great_circle_miles_sym (nth 0 (nth i gp []) 0)).
  repeat split.
Qed.

Lemma compute_distance_time_transpose_witness :
  exists d c p d' c' p',
    compute_distance_time (Array2 2 [[51.50; -0.10]; [51.52; -0.12]])
                          (Array2 2 [[51.51; -0.11]]) 40 25 = Ok (d, c, p) /\
    compute_distance_time (Array2 2 [[51.51; -0.11]])
                          (Array2 2 [[51.50; -0.10]; [51.52; -0.12]]) 40 25 = Ok (d', c', p') /\
    entry d 1 0 = entry d' 0 1.
Proof.
  destruct (compute_distance_time_transpose
              [[51.50; -0.10]; [51.52; -0.12]] [[51.51; -0.11]] 40 25)
    as (d & c & p & d' & c' & p' & H1 & H2 & H); try lra.
  exists d, c, p, d', c', p'. split; [exact H1 |]. split; [exact H2 |].
  apply (H 1%nat 0%nat); simpl; lia.
Defined.

(** X4: every distance lies between 0 and half the circumference of the
    sphere, 3959 * pi miles, and every travel time is non-negative. *)
Theorem compute_distance_time_bounds
    (gp hosp : list (list R)) (car_speed_mph pt_speed_mph : R) :
  0 < car_speed_mph -> 0 < pt_speed_mph ->
  exists dist_miles car_time_min pt_time_min,
    compute_distance_time (Array2 2 gp) (Array2 2 hosp) car_speed_mph pt_speed_mph
    = Ok (dist_miles, car_time_min, pt_time_min) /\
    forall i j, (i < length gp)%nat -> (j < length hosp)%nat ->
      0 <= entry dist_miles i j <= 3959 * PI /\
      0 <= entry car_time_min i j <= 3959 * PI / car_speed_mph * 60 /\
      0 <= entry pt_time_min i j <= 3959 * PI / pt_speed_mph * 60.
Proof.
  intros Hcar Hpt. do 3 eexists.
  split; [apply compute_distance_time_pair_miles; assumption |].
  intros i j Hi Hj.
  rewrite !(tab_entry _ _ _ _ _ _ [] []) by assumption.
  unfold pair_miles.
  pose proof (great_circle_miles_bounds (nth 0 (nth i gp []) 0) (nth 1 (nth i gp []) 0)
                (nth 0 (nth j hosp []) 0) (nth 1 (nth j hosp []) 0)) as [Hlo Hhi].
  repeat split; try assumption;
    try (apply rescale_nonneg; assumption);
    apply rescale_monotone; assumption.
Qed.

Lemma compute_distance_time_bounds_witness :
  exists dist_miles car_time_min pt_time_min,
    compute_distance_time (Array2 2 [[51.50; -0.10]; [51.52; -0.12]])
                          (Array2 2 [[51.51; -0.11]]) 40 25
    = Ok (dist_miles, car_time_min, pt_time_min) /\
    0 <= entry dist_miles 0 0 <= 3959 * PI.
Proof.
  destruct (compute_distance_time_bounds
              [[51.50; -0.10]; [51.52; -0.12]] [[51.51; -0.11]] 40 25)
    as (d & c & p & Heq & H); try lra.
  exists d, c, p. split; [exact Heq |]. apply (H 0%nat 0%nat); simpl; lia.
Defined.



(** ** nearest_metrics: more sites, other orders, failures *)

Lemma row_min_incl (r r' : list R) :
  r <> [] -> incl r r' -> row_min r' <= row_min r.
Proof.
  intros Hne Hincl. apply row_min_le, Hincl, row_min_attained, Hne.
Qed.

Lemma row_min_permutation (r r' : list R) :
  Permutation r r' -> row_min r = row_min r'.
Proof.
  intro Hp. destruct r as [| x xs].
  - apply Permutation_nil in Hp. now subst.
  - assert (Hne : x :: xs <> []) by discriminate.
    assert (Hne' : r' <> []).
    { intro E. subst. apply Permutation_sym, Permutation_nil in Hp. discriminate. }
    apply Rle_antisym.
    + apply row_min_incl; [exact Hne' |].
      intros y Hy. apply (Permutation_in y (Permutation_sym Hp) Hy).
    + apply row_min_incl; [exact Hne |].
      intros y Hy. apply (Permutation_in y Hp Hy).
Qed.

Lemma tab_row {A B : Type} (F : A -> B -> R) (gs : list A) (hs : list B) (i : nat) (dg : A) :
  (i < length gs)%nat -> nth i (tab F gs hs) [] = map (F (nth i gs dg)) hs.
Proof.
  intro Hi. unfold tab.
  rewrite (nth_indep _ [] ((fun g => map (F g) hs) dg)) by now rewrite length_map.
  exact (map_nth (fun g => map (F g) hs) gs dg i).
Qed.


Lemma nonempty_length {A : Type} (l : list A) : l <> [] -> (0 < length l)%nat.
Proof. destruct l; [congruence | simpl; lia]. Qed.

(** nearest_metrics on the three tables of one scenario. *)
Lemma nearest_metrics_tables {A B : Type} (D C P : A -> B -> R) (gs : list A) (hs : list B)
    (refs : list R) (car_speed_mph fuel_cost_per_mile co2_per_mile : R) :
  hs <> [] -> length refs = length gs ->
  nearest_metrics (PyNdarray (Array2 (length hs) (tab D gs hs)))
                  (PyNdarray (Array2 (length hs) (tab C gs hs)))
                  (PyNdarray (Array2 (length hs) (tab P gs hs)))
                  (PyNdarray (Array1 refs)) car_speed_mph fuel_cost_per_mile co2_per_mile
  = Ok (Metrics
          (Array1 (map row_min (tab D gs hs)))
          (Array1 (map row_min (tab C gs hs)))
          (Array1 (map row_min (tab P gs hs)))
          (Array1 (map (fun r => row_min r / 60 * car_speed_mph * fuel_cost_per_mile) (tab C gs hs)))
          (Array1 (map (fun r => row_min r / 60 * car_speed_mph * co2_per_mile) (tab C gs hs)))
          (Array1 (zipWith Rmult refs (map row_min (tab C gs hs))))
          (Array1 (zipWith Rmult refs (map row_min (tab P gs hs))))
          (Array1 (zipWith Rplus (zipWith Rmult refs (map row_min (tab C gs hs)))
                                 (zipWith Rmult refs (map row_min (tab P gs hs)))))).
Proof.
  intros Hne Hrefs. pose proof (nonempty_length hs Hne).
  apply nearest_metrics_arrays; rewrite ?tab_length; (assumption || congruence).
Qed.

Lemma item_row_min_tab {A B : Type} (F : A -> B -> R) (gs : list A) (hs : list B)
    (i : nat) (dg : A) :
  (i < length gs)%nat ->
  item (Array1 (map row_min (tab F gs hs))) i = row_min (map (F (nth i gs dg)) hs).
Proof.
  intro Hi. rewrite item_map_row_min. now rewrite (tab_row F gs hs i dg).
Qed.

(** X6: a site added at the end of the site list leaves the entries of the
    existing sites as they are, and no nearest distance, car time or
    public-transport time increases. *)
Theorem added_site_never_increases_nearest
    (gp hosp : list (list R)) (site : list R) (monthly_referrals : list R)
    (car_speed_mph pt_speed_mph fuel_cost_per_mile co2_per_mile : R) :
  0 < car_speed_mph -> 0 < pt_speed_mph -> hosp <> [] ->
  length monthly_referrals = length gp ->
  exists d c p m d' c' p' m',
    compute_distance_time (Array2 2 gp) (Array2 2 hosp) car_speed_mph pt_speed_mph
    = Ok (d, c, p) /\
    nearest_metrics (PyNdarray d) (PyNdarray c) (PyNdarray p)
                    (PyNdarray (Array1 monthly_referrals))
                    car_speed_mph fuel_cost_per_mile co2_per_mile = Ok m /\
    compute_distance_time (Array2 2 gp) (Array2 2 (hosp ++ [site])) car_speed_mph pt_speed_mph
    = Ok (d', c', p') /\
    nearest_metrics (PyNdarray d') (PyNdarray c') (PyNdarray p')
                    (PyNdarray (Array1 monthly_referrals))
                    car_speed_mph fuel_cost_per_mile co2_per_mile = Ok m' /\
    (forall i j, (i < length gp)%nat -> (j < length hosp)%nat ->
       entry d' i j = entry d i j /\ entry c' i j = entry c i j /\
       entry p' i j = entry p i j) /\
    (forall i, (i < length gp)%nat ->
       item (nearest_dist m') i <= item (nearest_dist m) i /\
       item (nearest_car_time m') i <= item (nearest_car_time m) i /\
       item (nearest_pt_time m') i <= item (nearest_pt_time m) i).
Proof.
  intros Hcar Hpt Hne Hrefs.
  assert (Hne' : hosp ++ [site] <> []) by (destruct hosp; discriminate).
  do 8 eexists.
  split; [apply compute_distance_time_pair_miles; assumption |].
  split; [apply nearest_metrics_tables; assumption |].
  split; [apply compute_distance_time_pair_miles; assumption |].
  split; [apply nearest_metrics_tables; assumption |].
  split.
  - intros i j Hi Hj.
    rewrite !(tab_entry _ _ (hosp ++ [site]) _ _ _ [] [])
      by (rewrite ?length_app; simpl; lia).
    rewrite !(tab_entry _ _ hosp _ _ _ [] []) by assumption.
    rewrite app_nth1 by assumption. repeat split.
  - intros i Hi. cbn [nearest_dist nearest_car_time nearest_pt_time].
    rewrite !(item_row_min_tab _ _ _ i []) by assumption.
    repeat split; (apply row_min_incl;
      [ destruct hosp; [congruence | discriminate]
      | rewrite map_app; apply incl_appl, incl_refl ]).
Qed.

Lemma added_site_never_increases_nearest_witness :
  exists d c p m d' c' p' m',
    compute_distance_time (Array2 2 [[51.50; -0.10]]) (Array2 2 [[51.51; -0.11]]) 40 25
    = Ok (d, c, p) /\
    nearest_metrics (PyNdarray d) (PyNdarray c) (PyNdarray p) (PyNdarray (Array1 [100]))
                    40 (1/5) (1/4) = Ok m /\
    compute_distance_time (Array2 2 [[51.50; -0.10]])
                          (Array2 2 ([[51.51; -0.11]] ++ [[51.60; -0.20]])) 40 25
    = Ok (d', c', p') /\
    nearest_metrics (PyNdarray d') (PyNdarray c') (PyNdarray p') (PyNdarray (Array1 [100]))
                    40 (1/5) (1/4) = Ok m' /\
    item (nearest_car_time m') 0 <= item (nearest_car_time m) 0.
Proof.
  destruct (added_site_never_increases_nearest
              [[51.50; -0.10]] [[51.51; -0.11]] [51.60; -0.20] [100] 40 25 (1/5) (1/4))
    as (d & c & p & m & d' & c' & p' & m' & H1 & H2 & H3 & H4 & _ & H);
    try lra; try discriminate; try reflexivity.
  exists d, c, p, m, d', c', p', m'. repeat (split; [assumption |]).
  apply (H 0%nat). simpl. lia.
Defined.

(** X7: the eight arrays that nearest_metrics returns do not depend on the
    order in which the sites are listed. *)
Theorem nearest_metrics_site_order
    (gp hosp hosp' : list (list R)) (monthly_referrals : list R)
    (car_speed_mph pt_speed_mph fuel_cost_per_mile co2_per_mile : R) :
  0 < car_speed_mph -> 0 < pt_speed_mph -> hosp <> [] ->
  length monthly_referrals = length gp ->
  Permutation hosp hosp' ->
  exists d c p d' c' p' m,
    compute_distance_time (Array2 2 gp) (Array2 2 hosp) car_speed_mph pt_speed_mph
    = Ok (d, c, p) /\
    compute_distance_time (Array2 2 gp) (Array2 2 hosp') car_speed_mph pt_speed_mph
    = Ok (d', c', p') /\
    nearest_metrics (PyNdarray d) (PyNdarray c) (PyNdarray p)
                    (PyNdarray (Array1 monthly_referrals))
                    car_speed_mph fuel_cost_per_mile co2_per_mile = Ok m /\
    nearest_metrics (PyNdarray d') (PyNdarray c') (PyNdarray p')
                    (PyNdarray (Array1 monthly_referrals))
                    car_speed_mph fuel_cost_per_mile co2_per_mile = Ok m.
Proof.
  intros Hcar Hpt Hne Hrefs Hperm.
  assert (Hne' : hosp' <> []).
  { intro E. subst. apply Permutation_sym, Permutation_nil in Hperm. contradiction. }
  assert (Hrow : forall (F : list R -> list R -> R) (g : list R),
            row_min (map (F g) hosp') = row_min (map (F g) hosp)).
  { intros F g. apply row_min_permutation, Permutation_map, Permutation_sym, Hperm. }
  assert (Hrows : forall (F : list R -> list R -> R) (k : R -> R),
            map (fun r => k (row_min r)) (tab F gp hosp')
            = map (fun r => k (row_min r)) (tab F gp hosp)).
  { intros F k. unfold tab. rewrite !map_map. apply map_ext. intro g. now rewrite Hrow. }
  assert (Hmin : forall F : list R -> list R -> R,
            map row_min (tab F gp hosp') = map row_min (tab F gp hosp)).
  { intro F. exact (Hrows F (fun v => v)). }
  do 7 eexists.
  split; [apply compute_distance_time_pair_miles; assumption |].
  split; [apply compute_distance_time_pair_miles; assumption |].
  split; [apply nearest_metrics_tables; assumption |].
  rewrite nearest_metrics_tables by assumption.
  rewrite !Hmin.
  rewrite (Hrows _ (fun v => v / 60 * car_speed_mph * fuel_cost_per_mile)).
  rewrite (Hrows _ (fun v => v / 60 * car_speed_mph * co2_per_mile)).
  reflexivity.
Qed.

Lemma nearest_metrics_site_order_witness :
  exists d c p d' c' p' m,
    compute_distance_time (Array2 2 [[51.50; -0.10]])
                          (Array2 2 [[51.51; -0.11]; [51.60; -0.20]]) 40 25 = Ok (d, c, p) /\
    compute_distance_time (Array2 2 [[51.50; -0.10]])
                          (Array2 2 [[51.60; -0.20]; [51.51; -0.11]]) 40 25 = Ok (d', c', p') /\
    nearest_metrics (PyNdarray d) (PyNdarray c) (PyNdarray p) (PyNdarray (Array1 [100]))
                    40 (1/5) (1/4) = Ok m /\
    nearest_metrics (PyNdarray d') (PyNdarray c') (PyNdarray p') (PyNdarray (Array1 [100]))
                    40 (1/5) (1/4) = Ok m.
Proof.
  apply (nearest_metrics_site_order
           [[51.50; -0.10]] [[51.51; -0.11]; [51.60; -0.20]] [[51.60; -0.20]; [51.51; -0.11]]
           [100] 40 25 (1/5) (1/4));
    try lra; try discriminate; try reflexivity.
  apply perm_swap.
Defined.



(** X9: with no site at all, compute_distance_time returns matrices without
    columns and nearest_metrics then fails in np.min with numpy's ValueError,
    whatever the demand points and the referrals array are. *)
Theorem nearest_metrics_no_site
    (gp : list (list R)) (monthly_referrals : ndarray)
    (car_speed_mph pt_speed_mph fuel_cost_per_mile co2_per_mile : R) :
  0 < car_speed_mph -> 0 < pt_speed_mph ->
  exists d c p,
    compute_distance_time (Array2 2 gp) (Array2 2 []) car_speed_mph pt_speed_mph
    = Ok (d, c, p) /\
    shape d = [length gp; 0%nat] /\
    nearest_metrics (PyNdarray d) (PyNdarray c) (PyNdarray p) (PyNdarray monthly_referrals)
                    car_speed_mph fuel_cost_per_mile co2_per_mile
    = Raise (ValueError
               "zero-size array to reduction operation minimum which has no identity").
Proof.
  intros Hcar Hpt. do 3 eexists.
  split; [apply compute_distance_time_pair_miles; assumption |].
  split; [cbn [shape length]; now rewrite tab_length | reflexivity].
Qed.

Lemma nearest_metrics_no_site_witness :
  exists d c p,
    compute_distance_time (Array2 2 [[51.50; -0.10]]) (Array2 2 []) 40 25 = Ok (d, c, p) /\
    nearest_metrics (PyNdarray d) (PyNdarray c) (PyNdarray p) (PyNdarray (Array1 [100]))
                    40 (1/5) (1/4)
    = Raise (ValueError
               "zero-size array to reduction operation minimum which has no identity").
Proof.
  destruct (nearest_metrics_no_site [[51.50; -0.10]] (Array1 [100]) 40 25 (1/5) (1/4))
    as (d & c & p & H1 & _ & H2); try lra.
  exists d, c, p. split; assumption.
Defined.





(** X11: the length of monthly_referrals is not checked against the number of
    demand points: a length that is neither that number nor 1 fails in the
    product with numpy's broadcasting ValueError (for more than one demand
    point), and a single referral value is applied to every demand point. *)
Theorem nearest_metrics_referrals_length
    (dist_miles car_time_min pt_time_min : ndarray) (monthly_referrals : list R)
    (n md mc mp : nat) (car_speed_mph fuel_cost_per_mile co2_per_mile : R) :
  has_shape dist_miles n md -> has_shape car_time_min n mc -> has_shape pt_time_min n mp ->
  (0 < md)%nat -> (0 < mc)%nat -> (0 < mp)%nat -> n <> 1%nat ->
  (length monthly_referrals <> n -> length monthly_referrals <> 1%nat ->
   nearest_metrics (PyNdarray dist_miles) (PyNdarray car_time_min) (PyNdarray pt_time_min)
                   (PyNdarray (Array1 monthly_referrals))
                   car_speed_mph fuel_cost_per_mile co2_per_mile
   = Raise (ValueError "operands could not be broadcast together")) /\
  (forall r, monthly_referrals = [r] ->
   exists m,
     nearest_metrics (PyNdarray dist_miles) (PyNdarray car_time_min) (PyNdarray pt_time_min)
                     (PyNdarray (Array1 monthly_referrals))
                     car_speed_mph fuel_cost_per_mile co2_per_mile = Ok m /\
     shape (weighted_car m) = [n] /\
     forall i, (i < n)%nat ->
       item (weighted_car m) i = r * item (nearest_car_time m) i /\
       item (weighted_pt m) i = r * item (nearest_pt_time m) i).
Proof.
  intros Hd Hc Hp Hmd Hmc Hmp Hn.
  shape_inv Hd rd Hld Had. shape_inv Hc rc Hlc Hac. shape_inv Hp rp Hlp Hap.
  unfold nearest_metrics, np_min_axis1.
  destruct (Nat.eqb_spec md 0); [lia |].
  destruct (Nat.eqb_spec mc 0); [lia |].
  destruct (Nat.eqb_spec mp 0); [lia |].
  cbn [bind]. unfold np_mul, np_add, np_binop. rewrite !length_map, Hlc, Hlp. split.
  - intros Hk Hk1. unfold broadcast_dim.
    destruct (Nat.eqb_spec (length monthly_referrals) n); [contradiction |].
    destruct (Nat.eqb_spec (length monthly_referrals) 1); [contradiction |].
    destruct (Nat.eqb_spec n 1); [contradiction | reflexivity].
  - intros r ->. cbn [length]. rewrite !broadcast_dim_1_l. cbn [bind].
    rewrite !bzip_single_l, !length_map, Hlc, Hlp, broadcast_dim_refl. cbn [bind].
    eexists. split; [reflexivity |].
    cbn [weighted_car weighted_pt nearest_car_time nearest_pt_time shape item].
    rewrite !length_map, Hlc. split; [reflexivity |].
    intros i Hi. split.
    + rewrite (nth_indep _ 0 (r * 0)) by (rewrite !length_map; lia).
      exact (map_nth (Rmult r) (map row_min rc) 0 i).
    + rewrite (nth_indep _ 0 (r * 0)) by (rewrite !length_map; lia).
      exact (map_nth (Rmult r) (map row_min rp) 0 i).
Qed.

Lemma nearest_metrics_referrals_length_witness :
  nearest_metrics (PyNdarray (Array2 2 [[3; 1]; [2; 5]]))
                  (PyNdarray (Array2 2 [[6; 2]; [4; 10]]))
                  (PyNdarray (Array2 2 [[9; 3]; [6; 15]]))
                  (PyNdarray (Array1 [100; 50; 7])) 30 (1/5) (1/4)
  = Raise (ValueError "operands could not be broadcast together").
Proof.
  apply (proj1 (nearest_metrics_referrals_length
                  (Array2 2 [[3; 1]; [2; 5]]) (Array2 2 [[6; 2]; [4; 10]])
                  (Array2 2 [[9; 3]; [6; 15]]) [100; 50; 7] 2 2 2 2 30 (1/5) (1/4)
                  ltac:(simpl; repeat constructor) ltac:(simpl; repeat constructor)
                  ltac:(simpl; repeat constructor) ltac:(lia) ltac:(lia) ltac:(lia)
                  ltac:(lia)));
    simpl; lia.
Defined.

(** ** One scenario, from the coordinates to the summary *)

Lemma improvement_car_pct_value (m : nat) (rows : list (list R)) (gp_df : dataframe)
    (weighted : ndarray) :
  (0 < m)%nat -> length rows = length gp_df ->
  improvement_car_pct (Array2 m rows) gp_df weighted
  = Ok (improvement_value (baseline_total (Array2 m rows) gp_df) (np_sum weighted)).
Proof.
  intros Hm Hlen. rewrite improvement_car_pct_cases by assumption.
  unfold improvement_value. now destruct (Rltb 0 _).
Qed.

Lemma baseline_weighted_sum (m : nat) (rows : list (list R)) (gp_df : dataframe) :
  length rows = length gp_df ->
  np_binop Rmult (Array1 (map (fun r => nth 0 r 0) rows)) (referrals gp_df)
  = Ok (Array1 (zipWith Rmult (map (fun r => nth 0 r 0) rows) (map Referrals gp_df))) /\
  sum_list (zipWith Rmult (map (fun r => nth 0 r 0) rows) (map Referrals gp_df))
  = baseline_total (Array2 m rows) gp_df.
Proof.
  intro Hlen. unfold referrals. split.
  - apply np_binop_vectors. now rewrite !length_map.
  - rewrite sum_list_zipWith by now rewrite !length_map.
    rewrite length_map, Hlen. unfold baseline_total. apply sum_upto_ext. intros i _.
    unfold entry. rewrite nth_column. apply Rmult_comm.
Qed.

Lemma run_scenario_ok (gp_df hospital_df : dataframe)
    (car_speed pt_speed fuel_cost co2_per_mile : R) :
  0 < car_speed -> 0 < pt_speed -> hospital_df <> [] ->
  let gp := coord_rows gp_df in
  let hosp := coord_rows hospital_df in
  let refs := map Referrals gp_df in
  let C := tab (pair_minutes car_speed) gp hosp in
  let P := tab (pair_minutes pt_speed) gp hosp in
  exists a,
    Workflow.run_scenario gp_df hospital_df car_speed pt_speed fuel_cost co2_per_mile = Ok a /\
    Workflow.dist a = Array2 (length hosp) (tab pair_miles gp hosp) /\
    Workflow.car_time a = Array2 (length hosp) C /\
    Workflow.pt_time a = Array2 (length hosp) P /\
    nearest_metrics (PyNdarray (Workflow.dist a)) (PyNdarray (Workflow.car_time a))
                    (PyNdarray (Workflow.pt_time a)) (PyNdarray (referrals gp_df))
                    car_speed fuel_cost co2_per_mile = Ok (Workflow.nearest a) /\
    nearest_car_time (Workflow.nearest a) = Array1 (map row_min C) /\
    nearest_pt_time (Workflow.nearest a) = Array1 (map row_min P) /\
    Workflow.baseline_car_time a = Array1 (map (fun r => nth 0 r 0) C) /\
    Workflow.baseline_pt_time a = Array1 (map (fun r => nth 0 r 0) P) /\
    Workflow.total_weighted_car a = sum_list (zipWith Rmult refs (map row_min C)) /\
    Workflow.total_weighted_pt a = sum_list (zipWith Rmult refs (map row_min P)) /\
    Workflow.baseline_total_car a = baseline_total (Array2 (length hosp) C) gp_df /\
    Workflow.baseline_total_pt a = baseline_total (Array2 (length hosp) P) gp_df /\
    Workflow.improvement_car a
    = improvement_value (Workflow.baseline_total_car a) (Workflow.total_weighted_car a) /\
    Workflow.improvement_pt a
    = improvement_value (Workflow.baseline_total_pt a) (Workflow.total_weighted_pt a) /\
    Workflow.nearest_site a = map row_argmin C /\
    hospital_summary (Workflow.car_time a) (Workflow.pt_time a) gp_df hospital_df
    = Ok (Workflow.summary_table a) /\
    Workflow.co2_delta a
    = sum_list (map (fun r => row_min r / 60 * car_speed * co2_per_mile) C)
      - sum_list (map (fun t => t / car_speed * co2_per_mile) (map (fun r => nth 0 r 0) C)) /\
    Workflow.fuel_delta a
    = sum_list (map (fun r => row_min r / 60 * car_speed * fuel_cost) C)
      - sum_list (map (fun t => t / car_speed * fuel_cost) (map (fun r => nth 0 r 0) C)) /\
    Workflow.improvement_car_min a
    = Array1 (zipWith Rminus (map (fun r => nth 0 r 0) C) (map row_min C)).
Proof.
  intros Hcar Hpt Hne gp hosp refs C P.
  assert (Hhosp : hosp <> []) by (unfold hosp, coord_rows; destruct hospital_df; [congruence | discriminate]).
  assert (Hm : (0 < length hosp)%nat) by now apply nonempty_length.
  assert (Hlh : length hospital_df = length hosp) by (unfold hosp, coord_rows; now rewrite length_map).
  assert (Hlg : length gp = length gp_df) by (unfold gp, coord_rows; now rewrite length_map).
  assert (HlC : length C = length gp_df) by (unfold C; now rewrite tab_length).
  assert (HlP : length P = length gp_df) by (unfold P; now rewrite tab_length).
  assert (Hrefs : length refs = length gp) by (unfold refs; rewrite length_map; congruence).
  unfold Workflow.run_scenario.
  change (coords gp_df) with (Array2 2 gp). change (coords hospital_df) with (Array2 2 hosp).
  rewrite compute_distance_time_pair_miles by assumption. cbn [bind].
  fold (pair_minutes car_speed) (pair_minutes pt_speed). fold C P.
  change (referrals gp_df) with (Array1 refs) at 1.
  pose proof (nearest_metrics_tables pair_miles (pair_minutes car_speed) (pair_minutes pt_speed)
                gp hosp refs car_speed fuel_cost co2_per_mile Hhosp Hrefs) as Hnm.
  fold C P in Hnm. rewrite Hnm. cbn [bind].
  unfold baseline_car, baseline_pt. rewrite !column_ok by assumption. cbn [bind].
  unfold np_mul.
  destruct (baseline_weighted_sum (length hosp) C gp_df HlC) as [-> HbC].
  destruct (baseline_weighted_sum (length hosp) P gp_df HlP) as [-> HbP].
  cbn [bind].
  change (improvement_pt_pct (Array2 (length hosp) P) gp_df)
    with (improvement_car_pct (Array2 (length hosp) P) gp_df).
  rewrite !improvement_car_pct_value by assumption. cbn [bind].
  unfold nearest_hospital_index, np_argmin_axis1.
  destruct (Nat.eqb_spec (length hosp) 0); [lia |]. cbn [bind].
  rewrite (hospital_summary_table (length hosp) (length hosp) C P gp_df hospital_df)
    by (lia || congruence).
  cbn [bind nearest_car_time]. unfold np_sub.
  rewrite np_binop_vectors by now rewrite !length_map.
  cbn [bind weighted_car weighted_pt nearest_car_time Demand.co2 Demand.fuel_cost np_sum np_map].
  eexists. split; [reflexivity |].
  cbn [Workflow.dist Workflow.car_time Workflow.pt_time Workflow.nearest
       Workflow.baseline_car_time Workflow.baseline_pt_time Workflow.total_weighted_car
       Workflow.total_weighted_pt Workflow.baseline_total_car Workflow.baseline_total_pt
       Workflow.improvement_car Workflow.improvement_pt Workflow.nearest_site
       Workflow.summary_table Workflow.co2_delta Workflow.fuel_delta
       Workflow.improvement_car_min nearest_car_time nearest_pt_time].
  rewrite HbC, HbP.
  repeat split; try reflexivity.
  - exact Hnm.
  - apply hospital_summary_table; (lia || congruence).
Qed.

(** ** The scenario against the single-site baseline *)

Lemma sum_upto_le (n : nat) (F G : nat -> R) :
  (forall i, (i < n)%nat -> F i <= G i) -> sum_upto n F <= sum_upto n G.
Proof.
  revert F G. induction n as [| n IH]; intros F G H.
  - unfold sum_upto. simpl. lra.
  - rewrite !sum_upto_S.
    assert (F 0%nat <= G 0%nat) by (apply H; lia).
    assert (sum_upto n (fun i => F (S i)) <= sum_upto n (fun i => G (S i)))
      by (apply IH; intros i Hi; apply H; lia).
    lra.
Qed.

Lemma sum_upto_zero (n : nat) : sum_upto n (fun _ => 0) = 0.
Proof.
  induction n as [| n IH]; [reflexivity |]. rewrite sum_upto_S, IH. lra.
Qed.

Lemma nearest_of_table {A B : Type} (F : A -> B -> R) (gs : list A) (hs : list B)
    (i : nat) (dg : A) :
  (i < length gs)%nat ->
  nth i (map row_min (tab F gs hs)) 0 = row_min (map (F (nth i gs dg)) hs).
Proof. intro Hi. exact (item_row_min_tab F gs hs i dg Hi). Qed.

Lemma first_of_table {A B : Type} (F : A -> B -> R) (gs : list A) (hs : list B)
    (i : nat) (dg : A) :
  (i < length gs)%nat ->
  nth i (map (fun r => nth 0 r 0) (tab F gs hs)) 0 = nth 0 (map (F (nth i gs dg)) hs) 0.
Proof. intro Hi. rewrite nth_column. now rewrite (tab_row F gs hs i dg). Qed.

Lemma row_min_table_le {A B : Type} (F : A -> B -> R) (g : A) (hs : list B) (j : nat) (dh : B) :
  (j < length hs)%nat -> row_min (map (F g) hs) <= F g (nth j hs dh).
Proof. intro Hj. apply row_min_le, in_map, nth_In, Hj. Qed.

Lemma row_min_table_nonneg {A B : Type} (F : A -> B -> R) (g : A) (hs : list B) :
  hs <> [] -> (forall h, 0 <= F g h) -> 0 <= row_min (map (F g) hs).
Proof.
  intros Hne Hpos.
  assert (Hin : In (row_min (map (F g) hs)) (map (F g) hs)).
  { apply row_min_attained. destruct hs; [congruence | discriminate]. }
  apply in_map_iff in Hin as (h & <- & _). apply Hpos.
Qed.

(** The scenario total lies between 0 and the total of sending every demand
    point to site [j]. *)
Lemma scenario_total_bounds {A B : Type} (F : A -> B -> R) (gs : list A) (hs : list B)
    (refs : list R) (j m : nat) :
  (j < length hs)%nat -> length refs = length gs ->
  (forall g h, 0 <= F g h) -> Forall (fun r => 0 <= r) refs ->
  0 <= sum_list (zipWith Rmult refs (map row_min (tab F gs hs)))
    <= sum_upto (length gs) (fun i => entry (Array2 m (tab F gs hs)) i j * nth i refs 0).
Proof.
  intros Hj Hlen Hpos Hrefs.
  assert (Hne : hs <> []) by (intro E; subst; simpl in Hj; lia).
  rewrite sum_list_zipWith by (rewrite length_map, tab_length; exact Hlen).
  rewrite Hlen.
  assert (Hr : forall i, (i < length gs)%nat -> 0 <= nth i refs 0).
  { intros i Hi. rewrite Forall_forall in Hrefs. apply Hrefs, nth_In. lia. }
  split.
  - apply Rle_trans with (sum_upto (length gs) (fun _ => 0));
      [rewrite sum_upto_zero; lra |].
    apply sum_upto_le. intros i Hi. cbv beta.
    destruct gs as [| g0 gs']; [simpl in Hi; lia |].
    rewrite (nearest_of_table F _ hs i g0 Hi).
    pose proof (row_min_table_nonneg F (nth i (g0 :: gs') g0) hs Hne (Hpos _)).
    specialize (Hr i Hi). nra.
  - apply sum_upto_le. intros i Hi. cbv beta.
    destruct gs as [| g0 gs']; [simpl in Hi; lia |].
    destruct hs as [| h0 hs']; [congruence |].
    rewrite (nearest_of_table F _ _ i g0 Hi).
    rewrite (tab_entry F _ _ m i j g0 h0 Hi Hj).
    pose proof (row_min_table_le F (nth i (g0 :: gs') g0) (h0 :: hs') j h0 Hj).
    specialize (Hr i Hi). nra.
Qed.

Lemma improvement_value_bounds (b t : R) :
  0 <= t <= b -> 0 <= improvement_value b t <= 100.
Proof.
  intros [Ht Htb]. unfold improvement_value, Rltb.
  destruct (Rlt_dec 0 b) as [Hb | Hb]; [| lra].
  unfold Rdiv. pose proof (Rinv_0_lt_compat b Hb) as Hinv.
  assert (Hone : b * / b = 1) by (apply Rinv_r; lra).
  split.
  - assert (0 <= (b - t) * / b) by (apply Rmult_le_pos; lra). lra.
  - assert ((b - t) * / b <= 1) by (rewrite <- Hone; apply Rmult_le_compat_r; lra). lra.
Qed.

Lemma pair_minutes_nonneg (speed : R) (g h : list R) : 0 < speed -> 0 <= pair_minutes speed g h.
Proof.
  intro Hs. unfold pair_minutes, pair_miles. apply rescale_nonneg; [| assumption].
  apply great_circle_miles_bounds.
Qed.

Lemma baseline_total_as_demand (m : nat) (rows : list (list R)) (gp_df : dataframe) :
  baseline_total (Array2 m rows) gp_df
  = sum_upto (length gp_df)
      (fun i => entry (Array2 m rows) i 0 * nth i (map Referrals gp_df) 0).
Proof. unfold baseline_total. apply sum_upto_ext. intros i _. apply Rmult_comm. Qed.

(** X12: with non-negative referrals and positive speeds, the scenario total
    of each mode lies between 0 and the baseline total, and both improvement
    percentages lie between 0 and 100. *)
Theorem improvement_between_0_and_100
    (gp_df hospital_df : dataframe) (car_speed pt_speed fuel_cost co2_per_mile : R) :
  0 < car_speed -> 0 < pt_speed -> hospital_df <> [] ->
  Forall (fun p => 0 <= Referrals p) gp_df ->
  exists a,
    Workflow.run_scenario gp_df hospital_df car_speed pt_speed fuel_cost co2_per_mile = Ok a /\
    0 <= Workflow.total_weighted_car a <= Workflow.baseline_total_car a /\
    0 <= Workflow.total_weighted_pt a <= Workflow.baseline_total_pt a /\
    0 <= Workflow.improvement_car a <= 100 /\
    0 <= Workflow.improvement_pt a <= 100.
Proof.
  intros Hcar Hpt Hne Hrefs.
  destruct (run_scenario_ok gp_df hospital_df car_speed pt_speed fuel_cost co2_per_mile
              Hcar Hpt Hne)
    as (a & Hrun & _ & _ & _ & _ & _ & _ & _ & _ & Htc & Htp & Hbc & Hbp & Hic & Hip & _).
  assert (Hm : (0 < length (coord_rows hospital_df))%nat).
  { unfold coord_rows. rewrite length_map. now apply nonempty_length. }
  assert (Hlen : length (map Referrals gp_df) = length (coord_rows gp_df))
    by (unfold coord_rows; now rewrite !length_map).
  assert (Hpos : Forall (fun r => 0 <= r) (map Referrals gp_df)).
  { apply Forall_forall. intros r Hr. apply in_map_iff in Hr as (p & <- & Hp).
    rewrite Forall_forall in Hrefs. now apply Hrefs. }
  assert (Hcarb : 0 <= Workflow.total_weighted_car a <= Workflow.baseline_total_car a).
  { rewrite Htc, Hbc, baseline_total_as_demand.
    replace (length gp_df) with (length (coord_rows gp_df))
      by (unfold coord_rows; now rewrite length_map).
    apply scenario_total_bounds; try assumption.
    intros g h. now apply pair_minutes_nonneg. }
  assert (Hptb : 0 <= Workflow.total_weighted_pt a <= Workflow.baseline_total_pt a).
  { rewrite Htp, Hbp, baseline_total_as_demand.
    replace (length gp_df) with (length (coord_rows gp_df))
      by (unfold coord_rows; now rewrite length_map).
    apply scenario_total_bounds; try assumption.
    intros g h. now apply pair_minutes_nonneg. }
  exists a. split; [exact Hrun |]. split; [exact Hcarb |]. split; [exact Hptb |].
  rewrite Hic, Hip. split; now apply improvement_value_bounds.
Qed.

Lemma improvement_between_0_and_100_witness :
  exists a,
    Workflow.run_scenario
      [Place "GP A" 51.50 (-0.10) 100; Place "GP B" 51.52 (-0.12) 50]
      [Place "Site 1" 51.51 (-0.11) 0; Place "Site 2" 51.60 (-0.20) 0] 40 25 (1/5) (1/4)
    = Ok a /\
    0 <= Workflow.improvement_car a <= 100.
Proof.
  destruct (improvement_between_0_and_100
              [Place "GP A" 51.50 (-0.10) 100; Place "GP B" 51.52 (-0.12) 50]
              [Place "Site 1" 51.51 (-0.11) 0; Place "Site 2" 51.60 (-0.20) 0] 40 25 (1/5) (1/4))
    as (a & Hrun & _ & _ & Hc & _); try lra; try discriminate.
  - repeat constructor; simpl; lra.
  - exists a. split; assumption.
Defined.

Lemma summary_of_scenario (a : Workflow.analysis) (gp_df hospital_df : dataframe)
    (m : nat) (C P : list (list R)) :
  Workflow.car_time a = Array2 m C -> Workflow.pt_time a = Array2 m P ->
  hospital_summary (Workflow.car_time a) (Workflow.pt_time a) gp_df hospital_df
  = Ok (Workflow.summary_table a) ->
  (0 < m)%nat -> length hospital_df = m ->
  length C = length gp_df -> length P = length gp_df ->
  Workflow.summary_table a
  = Summary
      (map Description hospital_df)
      (map (fun j => assigned_to j (map row_argmin C) (map Referrals gp_df)) (seq 0 m))
      (map (fun j => sum_upto (length gp_df)
                       (fun i => entry (Array2 m C) i j * nth i (map Referrals gp_df) 0))
           (seq 0 m))
      (map (fun j => sum_upto (length gp_df)
                       (fun i => entry (Array2 m P) i j * nth i (map Referrals gp_df) 0))
           (seq 0 m)).
Proof.
  intros HC HP Hsum Hm Hh HlC HlP. rewrite HC, HP in Hsum.
  rewrite hospital_summary_table in Hsum by (lia || assumption).
  now injection Hsum as <-.
Qed.

(** X13: every site's total weighted demand, by car and by public transport,
    is at least the scenario total of that mode when referrals are
    non-negative, and the first site's total weighted demand is the baseline
    total. *)
Theorem site_demand_dominates_scenario_total
    (gp_df hospital_df : dataframe) (car_speed pt_speed fuel_cost co2_per_mile : R) :
  0 < car_speed -> 0 < pt_speed -> hospital_df <> [] ->
  Forall (fun p => 0 <= Referrals p) gp_df ->
  exists a,
    Workflow.run_scenario gp_df hospital_df car_speed pt_speed fuel_cost co2_per_mile = Ok a /\
    nth 0 (Total_Weighted_Demand_Car (Workflow.summary_table a)) 0
    = Workflow.baseline_total_car a /\
    nth 0 (Total_Weighted_Demand_PT (Workflow.summary_table a)) 0
    = Workflow.baseline_total_pt a /\
    forall j, (j < length hospital_df)%nat ->
      Workflow.total_weighted_car a
      <= nth j (Total_Weighted_Demand_Car (Workflow.summary_table a)) 0 /\
      Workflow.total_weighted_pt a
      <= nth j (Total_Weighted_Demand_PT (Workflow.summary_table a)) 0.
Proof.
  intros Hcar Hpt Hne Hrefs.
  destruct (run_scenario_ok gp_df hospital_df car_speed pt_speed fuel_cost co2_per_mile
              Hcar Hpt Hne)
    as (a & Hrun & _ & HC & HP & _ & _ & _ & _ & _ & Htc & Htp & Hbc & Hbp & _ & _ & _
        & Hsum & _).
  assert (Hlh : length hospital_df = length (coord_rows hospital_df))
    by (unfold coord_rows; now rewrite length_map).
  assert (Hlg : length (coord_rows gp_df) = length gp_df)
    by (unfold coord_rows; now rewrite length_map).
  assert (Hm : (0 < length (coord_rows hospital_df))%nat)
    by (rewrite <- Hlh; now apply nonempty_length).
  assert (Hlen : length (map Referrals gp_df) = length (coord_rows gp_df))
    by (now rewrite length_map, Hlg).
  assert (Hpos : Forall (fun r => 0 <= r) (map Referrals gp_df)).
  { apply Forall_forall. intros r Hr. apply in_map_iff in Hr as (p & <- & Hp).
    rewrite Forall_forall in Hrefs. now apply Hrefs. }
  exists a. split; [exact Hrun |].
  rewrite (summary_of_scenario a gp_df hospital_df _ _ _ HC HP Hsum Hm Hlh)
    by (rewrite tab_length; exact Hlg).
  cbn [Total_Weighted_Demand_Car Total_Weighted_Demand_PT].
  rewrite !(nth_map_seq _ _ 0%nat Hm), Hbc, Hbp, !baseline_total_as_demand.
  split; [reflexivity |]. split; [reflexivity |].
  intros j Hj. rewrite Hlh in Hj. rewrite !(nth_map_seq _ _ j Hj), Htc, Htp, <- Hlg.
  split; apply scenario_total_bounds; try assumption;
    intros g h; now apply pair_minutes_nonneg.
Qed.

Lemma site_demand_dominates_scenario_total_witness :
  exists a,
    Workflow.run_scenario
      [Place "GP A" 51.50 (-0.10) 100; Place "GP B" 51.52 (-0.12) 50]
      [Place "Site 1" 51.51 (-0.11) 0; Place "Site 2" 51.60 (-0.20) 0] 40 25 (1/5) (1/4)
    = Ok a /\
    Workflow.total_weighted_car a
    <= nth 1 (Total_Weighted_Demand_Car (Workflow.summary_table a)) 0.
Proof.
  destruct (site_demand_dominates_scenario_total
              [Place "GP A" 51.50 (-0.10) 100; Place "GP B" 51.52 (-0.12) 50]
              [Place "Site 1" 51.51 (-0.11) 0; Place "Site 2" 51.60 (-0.20) 0] 40 25 (1/5) (1/4))
    as (a & Hrun & _ & _ & H); try lra; try discriminate.
  - repeat constructor; simpl; lra.
  - exists a. split; [exact Hrun |]. apply (H 1%nat). simpl. lia.
Defined.

Lemma row_argmin_zero_iff (r : list R) :
  r <> [] -> (row_argmin r = 0%nat <-> nth 0 r 0 = row_min r).
Proof.
  intro Hne. destruct (row_argmin_spec r Hne) as (Hlt & Hle & Hfirst).
  pose proof (row_min_attained r Hne) as Hin.
  assert (H0 : In (nth 0 r 0) r) by (apply nth_In; lia).
  split.
  - intro E. rewrite E in Hle. apply Rle_antisym.
    + now apply Hle.
    + now apply row_min_le.
  - intro E. destruct (Nat.eq_dec (row_argmin r) 0) as [Hz | Hnz]; [exact Hz | exfalso].
    assert (Hlt0 : nth (row_argmin r) r 0 < nth 0 r 0) by (apply Hfirst; lia).
    assert (row_min r <= nth (row_argmin r) r 0) by (apply row_min_le, nth_In, Hlt).
    lra.
Qed.

(** X14: the per-practice improvement, baseline car time minus nearest car
    time, is never negative, and it is 0 exactly for the practices whose
    nearest site is the first site. *)
Theorem improvement_car_min_nonneg
    (gp_df hospital_df : dataframe) (car_speed pt_speed fuel_cost co2_per_mile : R) :
  0 < car_speed -> 0 < pt_speed -> hospital_df <> [] ->
  exists a,
    Workflow.run_scenario gp_df hospital_df car_speed pt_speed fuel_cost co2_per_mile = Ok a /\
    shape (Workflow.improvement_car_min a) = [length gp_df] /\
    forall i, (i < length gp_df)%nat ->
      item (Workflow.improvement_car_min a) i
      = entry (Workflow.car_time a) i 0 - item (nearest_car_time (Workflow.nearest a)) i /\
      0 <= item (Workflow.improvement_car_min a) i /\
      (item (Workflow.improvement_car_min a) i = 0 <->
       nth i (Workflow.nearest_site a) 0%nat = 0%nat).
Proof.
  intros Hcar Hpt Hne.
  destruct (run_scenario_ok gp_df hospital_df car_speed pt_speed fuel_cost co2_per_mile
              Hcar Hpt Hne)
    as (a & Hrun & _ & HC & _ & _ & Hnc & _ & _ & _ & _ & _ & _ & _ & _ & _ & Hidx
        & _ & _ & _ & Hmin).
  set (C := tab (pair_minutes car_speed) (coord_rows gp_df) (coord_rows hospital_df)) in *.
  assert (Hlg : length (coord_rows gp_df) = length gp_df)
    by (unfold coord_rows; now rewrite length_map).
  assert (HlC : length C = length gp_df) by (unfold C; now rewrite tab_length).
  assert (Hrect : Forall (fun r => length r = length (coord_rows hospital_df)) C)
    by apply tab_rectangular.
  assert (Hm : (0 < length (coord_rows hospital_df))%nat).
  { unfold coord_rows. rewrite length_map. now apply nonempty_length. }
  exists a. split; [exact Hrun |]. rewrite Hmin, HC, Hnc, Hidx.
  cbn [shape item entry]. split.
  - rewrite zipWith_length; rewrite !length_map; congruence.
  - intros i Hi.
    assert (Hrow : length (nth i C []) = length (coord_rows hospital_df))
      by (apply nth_row_length; [assumption | lia]).
    assert (Hrne : nth i C [] <> []).
    { intro E. rewrite E in Hrow. simpl in Hrow. lia. }
    rewrite (zipWith_nth Rminus _ _ i 0 0 0) by (rewrite !length_map; lia).
    rewrite nth_column. change (nth i (map row_min C) 0) with (item (Array1 (map row_min C)) i).
    rewrite item_map_row_min.
    change (nth i (map row_argmin C) 0%nat) with (nth i (map row_argmin C) (row_argmin [])).
    rewrite (map_nth row_argmin C [] i).
    split; [reflexivity |].
    assert (Hle : row_min (nth i C []) <= nth 0 (nth i C []) 0)
      by (apply row_min_le, nth_In; lia).
    split; [lra |].
    rewrite (row_argmin_zero_iff _ Hrne). split; intro H; lra.
Qed.

Lemma improvement_car_min_nonneg_witness :
  exists a,
    Workflow.run_scenario
      [Place "GP A" 51.50 (-0.10) 100; Place "GP B" 51.52 (-0.12) 50]
      [Place "Site 1" 51.51 (-0.11) 0; Place "Site 2" 51.60 (-0.20) 0] 40 25 (1/5) (1/4)
    = Ok a /\
    0 <= item (Workflow.improvement_car_min a) 1.
Proof.
  destruct (improvement_car_min_nonneg
              [Place "GP A" 51.50 (-0.10) 100; Place "GP B" 51.52 (-0.12) 50]
              [Place "Site 1" 51.51 (-0.11) 0; Place "Site 2" 51.60 (-0.20) 0] 40 25 (1/5) (1/4))
    as (a & Hrun & _ & H); try lra; try discriminate.
  exists a. split; [exact Hrun |]. apply (H 1%nat). simpl. lia.
Defined.

Lemma improvement_value_same (b : R) : improvement_value b b = 0.
Proof.
  unfold improvement_value, Rltb. destruct (Rlt_dec 0 b); [| reflexivity].
  unfold Rdiv. replace (b - b) with 0 by lra. ring.
Qed.

Lemma improvement_value_antitone (b t t' : R) :
  t' <= t -> improvement_value b t <= improvement_value b t'.
Proof.
  intro H. unfold improvement_value, Rltb. destruct (Rlt_dec 0 b) as [Hb | Hb]; [| lra].
  unfold Rdiv. pose proof (Rinv_0_lt_compat b Hb).
  assert ((b - t) * / b <= (b - t') * / b) by (apply Rmult_le_compat_r; lra). lra.
Qed.

Lemma sum_list_map_scale {A : Type} (f : A -> R) (k : R) (l : list A) :
  sum_list (map (fun x => f x * k) l) = sum_list (map f l) * k.
Proof.
  induction l as [| x l IH]; cbn [map]; [unfold sum_list; simpl; ring |].
  rewrite !sum_list_cons, IH. ring.
Qed.

Lemma single_site_table {A B : Type} (F : A -> B -> R) (gs : list A) (h : B) :
  map row_min (tab F gs [h]) = map (fun g => F g h) gs /\
  map (fun r => nth 0 r 0) (tab F gs [h]) = map (fun g => F g h) gs /\
  map row_argmin (tab F gs [h]) = map (fun _ => 0%nat) gs.
Proof. unfold tab. rewrite !map_map. repeat split. Qed.

Lemma sum_list_zipWith_comm (la lb : list R) :
  sum_list (zipWith Rmult la lb) = sum_list (zipWith Rmult lb la).
Proof.
  revert lb. induction la as [| a la IH]; intros [| b lb]; try reflexivity.
  cbn [zipWith]. rewrite !sum_list_cons, IH. ring.
Qed.

(** X15: with a single site the scenario is the baseline: nearest times are
    the baseline times, both improvement percentages are 0, and the site is
    assigned the referrals of every practice. *)
Theorem single_site_scenario_is_baseline
    (gp_df : dataframe) (site : place) (car_speed pt_speed fuel_cost co2_per_mile : R) :
  0 < car_speed -> 0 < pt_speed ->
  exists a,
    Workflow.run_scenario gp_df [site] car_speed pt_speed fuel_cost co2_per_mile = Ok a /\
    nearest_car_time (Workflow.nearest a) = Workflow.baseline_car_time a /\
    nearest_pt_time (Workflow.nearest a) = Workflow.baseline_pt_time a /\
    Workflow.total_weighted_car a = Workflow.baseline_total_car a /\
    Workflow.total_weighted_pt a = Workflow.baseline_total_pt a /\
    Workflow.improvement_car a = 0 /\
    Workflow.improvement_pt a = 0 /\
    Total_Referrals_Assigned (Workflow.summary_table a) = [sum_list (map Referrals gp_df)].
Proof.
  intros Hcar Hpt.
  destruct (run_scenario_ok gp_df [site] car_speed pt_speed fuel_cost co2_per_mile
              Hcar Hpt ltac:(discriminate))
    as (a & Hrun & _ & HC & HP & _ & Hnc & Hnp & Hbc & Hbp & Htc & Htp & Hbtc & Hbtp
        & Hic & Hip & _ & Hsum & _).
  cbn [coord_rows map length] in *.
  set (gp := coord_rows gp_df) in *.
  set (h := [result_latitude site; result_longitude site]) in *.
  assert (Hlg : length gp = length gp_df) by (unfold gp, coord_rows; now rewrite length_map).
  destruct (single_site_table (pair_minutes car_speed) gp h) as (HmC & H0C & HaC).
  destruct (single_site_table (pair_minutes pt_speed) gp h) as (HmP & H0P & _).
  assert (Etc : Workflow.total_weighted_car a = Workflow.baseline_total_car a).
  { rewrite Htc, Hbtc.
    rewrite <- (proj2 (baseline_weighted_sum 1 _ gp_df
                         (eq_trans (tab_length _ gp [h]) Hlg))).
    rewrite HmC, H0C. apply sum_list_zipWith_comm. }
  assert (Etp : Workflow.total_weighted_pt a = Workflow.baseline_total_pt a).
  { rewrite Htp, Hbtp.
    rewrite <- (proj2 (baseline_weighted_sum 1 _ gp_df
                         (eq_trans (tab_length _ gp [h]) Hlg))).
    rewrite HmP, H0P. apply sum_list_zipWith_comm. }
  exists a. split; [exact Hrun |].
  split; [rewrite Hnc, Hbc, HmC, H0C; reflexivity |].
  split; [rewrite Hnp, Hbp, HmP, H0P; reflexivity |].
  split; [exact Etc |]. split; [exact Etp |].
  split; [rewrite Hic, Etc; apply improvement_value_same |].
  split; [rewrite Hip, Etp; apply improvement_value_same |].
  rewrite (summary_of_scenario a gp_df [site] _ _ _ HC HP Hsum)
    by (rewrite ?tab_length; (lia || reflexivity || assumption)).
  cbn [Total_Referrals_Assigned seq map]. f_equal.
  pose proof (assigned_partition 1
                (map row_argmin (tab (pair_minutes car_speed) gp [h]))
                (map Referrals gp_df)) as Hpart.
  cbn [seq map] in Hpart. rewrite sum_list_cons in Hpart.
  replace (sum_list []) with 0 in Hpart by reflexivity.
  rewrite <- Hpart; [lra | |].
  - rewrite !length_map, tab_length. exact Hlg.
  - rewrite HaC. apply Forall_forall. intros k Hk.
    apply in_map_iff in Hk as (g & <- & _). lia.
Qed.

(** X16: with no demand point the scenario still returns: every per-practice
    array is empty, both improvement percentages are 0, and every entry of
    the hospital summary is 0. *)
Theorem empty_demand_scenario
    (hospital_df : dataframe) (car_speed pt_speed fuel_cost co2_per_mile : R) :
  0 < car_speed -> 0 < pt_speed -> hospital_df <> [] ->
  exists a,
    Workflow.run_scenario [] hospital_df car_speed pt_speed fuel_cost co2_per_mile = Ok a /\
    Workflow.nearest a
    = Metrics (Array1 []) (Array1 []) (Array1 []) (Array1 []) (Array1 [])
              (Array1 []) (Array1 []) (Array1 []) /\
    Workflow.improvement_car a = 0 /\
    Workflow.improvement_pt a = 0 /\
    Total_Referrals_Assigned (Workflow.summary_table a) = repeat 0 (length hospital_df) /\
    Total_Weighted_Demand_Car (Workflow.summary_table a) = repeat 0 (length hospital_df) /\
    Total_Weighted_Demand_PT (Workflow.summary_table a) = repeat 0 (length hospital_df).
Proof.
  intros Hcar Hpt Hne.
  destruct (run_scenario_ok [] hospital_df car_speed pt_speed fuel_cost co2_per_mile
              Hcar Hpt Hne)
    as (a & Hrun & Hd & HC & HP & Hnm & _ & _ & _ & _ & Htc & Htp & Hbtc & Hbtp
        & Hic & Hip & _ & Hsum & _).
  cbn [coord_rows map tab] in *.
  fold (coord_rows hospital_df) in *.
  assert (Hlh : length hospital_df = length (coord_rows hospital_df))
    by (unfold coord_rows; now rewrite length_map).
  assert (Hm : (0 < length (coord_rows hospital_df))%nat)
    by (rewrite <- Hlh; now apply nonempty_length).
  assert (Hconst : forall (F : nat -> R) (n : nat),
            (forall j, F j = 0) -> map F (seq 0 n) = repeat 0 n).
  { intros F n HF. rewrite (map_ext F (fun _ => 0) HF).
    generalize 0%nat. induction n as [| n IH]; intro s; simpl; [reflexivity | now rewrite IH]. }
  exists a. split; [exact Hrun |].
  split.
  { rewrite Hd, HC, HP in Hnm. unfold referrals in Hnm. cbn [map] in Hnm.
    rewrite nearest_metrics_arrays in Hnm by (assumption || reflexivity).
    now injection Hnm as <-. }
  split; [rewrite Hic, Hbtc; unfold improvement_value, baseline_total, sum_upto, sum_list;
          simpl; now rewrite Rltb_false by lra |].
  split; [rewrite Hip, Hbtp; unfold improvement_value, baseline_total, sum_upto, sum_list;
          simpl; now rewrite Rltb_false by lra |].
  rewrite (summary_of_scenario a [] hospital_df _ _ _ HC HP Hsum)
    by (assumption || reflexivity).
  cbn [Total_Referrals_Assigned Total_Weighted_Demand_Car Total_Weighted_Demand_PT].
  rewrite Hlh. repeat split; apply Hconst; intro j; reflexivity.
Qed.

Lemma empty_demand_scenario_witness :
  exists a,
    Workflow.run_scenario []
      [Place "Site 1" 51.51 (-0.11) 0; Place "Site 2" 51.60 (-0.20) 0] 40 25 (1/5) (1/4)
    = Ok a /\
    Workflow.improvement_car a = 0 /\
    Total_Referrals_Assigned (Workflow.summary_table a) = [0; 0].
Proof.
  destruct (empty_demand_scenario
              [Place "Site 1" 51.51 (-0.11) 0; Place "Site 2" 51.60 (-0.20) 0] 40 25 (1/5) (1/4))
    as (a & Hrun & _ & Hc & _ & Hassigned & _); try lra; try discriminate.
  exists a. split; [exact Hrun |]. split; [exact Hc | exact Hassigned].
Defined.

Lemma single_site_scenario_is_baseline_witness :
  exists a,
    Workflow.run_scenario
      [Place "GP A" 51.50 (-0.10) 100; Place "GP B" 51.52 (-0.12) 50]
      [Place "Site 1" 51.51 (-0.11) 0] 40 25 (1/5) (1/4) = Ok a /\
    Workflow.improvement_car a = 0 /\
    Total_Referrals_Assigned (Workflow.summary_table a) = [sum_list [100; 50]].
Proof.
  destruct (single_site_scenario_is_baseline
              [Place "GP A" 51.50 (-0.10) 100; Place "GP B" 51.52 (-0.12) 50]
              (Place "Site 1" 51.51 (-0.11) 0) 40 25 (1/5) (1/4))
    as (a & Hrun & _ & _ & _ & _ & Hc & _ & Hassigned); try lra.
  exists a. split; [exact Hrun |]. split; [exact Hc | exact Hassigned].
Defined.

(** X17: the CO2 and fuel deltas of the Summary tab divide the baseline car
    minutes by the car speed, where nearest_metrics multiplies minutes / 60 by
    it; so with a single site, where scenario and baseline coincide, the
    deltas are not 0 but (car_speed / 60 - 1 / car_speed) * rate * (sum of the
    nearest car times). *)
Theorem single_site_co2_and_fuel_delta
    (gp_df : dataframe) (site : place) (car_speed pt_speed fuel_cost co2_per_mile : R) :
  0 < car_speed -> 0 < pt_speed ->
  exists a,
    Workflow.run_scenario gp_df [site] car_speed pt_speed fuel_cost co2_per_mile = Ok a /\
    Workflow.co2_delta a
    = (car_speed / 60 - 1 / car_speed) * co2_per_mile
      * np_sum (nearest_car_time (Workflow.nearest a)) /\
    Workflow.fuel_delta a
    = (car_speed / 60 - 1 / car_speed) * fuel_cost
      * np_sum (nearest_car_time (Workflow.nearest a)).
Proof.
  intros Hcar Hpt.
  destruct (run_scenario_ok gp_df [site] car_speed pt_speed fuel_cost co2_per_mile
              Hcar Hpt ltac:(discriminate))
    as (a & Hrun & _ & _ & _ & _ & Hnc & _ & _ & _ & _ & _ & _ & _ & _ & _ & _ & _
        & Hco2 & Hfuel & _).
  cbn [coord_rows map length] in *.
  set (gp := coord_rows gp_df) in *.
  set (h := [result_latitude site; result_longitude site]) in *.
  destruct (single_site_table (pair_minutes car_speed) gp h) as (HmC & H0C & _).
  assert (Hdelta : forall k,
            sum_list (map (fun r => row_min r / 60 * car_speed * k)
                          (tab (pair_minutes car_speed) gp [h]))
            - sum_list (map (fun t => t / car_speed * k)
                            (map (fun r => nth 0 r 0) (tab (pair_minutes car_speed) gp [h])))
            = (car_speed / 60 - 1 / car_speed) * k
              * sum_list (map (fun g => pair_minutes car_speed g h) gp)).
  { intro k. rewrite H0C. unfold tab. rewrite !map_map. cbn [map row_min fold_left].
    rewrite (map_ext (fun g => pair_minutes car_speed g h / 60 * car_speed * k)
                     (fun g => pair_minutes car_speed g h * (car_speed / 60 * k)))
      by (intro g; field).
    rewrite (map_ext (fun g => pair_minutes car_speed g h / car_speed * k)
                     (fun g => pair_minutes car_speed g h * (1 / car_speed * k)))
      by (intro g; field; lra).
    rewrite !sum_list_map_scale. ring. }
  exists a. split; [exact Hrun |].
  rewrite Hco2, Hfuel, Hnc, HmC. cbn [np_sum]. split; apply Hdelta.
Qed.

Lemma single_site_co2_and_fuel_delta_witness :
  exists a,
    Workflow.run_scenario
      [Place "GP A" 51.50 (-0.10) 100; Place "GP B" 51.52 (-0.12) 50]
      [Place "Site 1" 51.51 (-0.11) 0] 40 25 (1/5) (1/4) = Ok a /\
    Workflow.co2_delta a
    = (40 / 60 - 1 / 40) * (1/4) * np_sum (nearest_car_time (Workflow.nearest a)).
Proof.
  destruct (single_site_co2_and_fuel_delta
              [Place "GP A" 51.50 (-0.10) 100; Place "GP B" 51.52 (-0.12) 50]
              (Place "Site 1" 51.51 (-0.11) 0) 40 25 (1/5) (1/4))
    as (a & Hrun & Hco2 & _); try lra.
  exists a. split; [exact Hrun | exact Hco2].
Defined.

Lemma baseline_total_added_site {A B : Type} (F : A -> B -> R) (gs : list A) (hs : list B)
    (h : B) (gp_df : dataframe) :
  hs <> [] -> length gs = length gp_df ->
  baseline_total (Array2 (length (hs ++ [h])) (tab F gs (hs ++ [h]))) gp_df
  = baseline_total (Array2 (length hs) (tab F gs hs)) gp_df.
Proof.
  intros Hne Hlen. unfold baseline_total. apply sum_upto_ext. intros i Hi.
  f_equal. destruct hs as [| h0 hs']; [congruence |].
  destruct gs as [| g0 gs']; [simpl in Hlen; lia |].
  rewrite (tab_entry F _ _ _ i 0 g0 h0) by (simpl in *; lia).
  rewrite (tab_entry F _ _ _ i 0 g0 h0) by (simpl in *; lia).
  reflexivity.
Qed.

Lemma scenario_total_added_site {A B : Type} (F : A -> B -> R) (gs : list A) (hs : list B)
    (h : B) (refs : list R) :
  hs <> [] -> length refs = length gs -> Forall (fun r => 0 <= r) refs ->
  sum_list (zipWith Rmult refs (map row_min (tab F gs (hs ++ [h]))))
  <= sum_list (zipWith Rmult refs (map row_min (tab F gs hs))).
Proof.
  intros Hne Hlen Hrefs.
  rewrite !sum_list_zipWith by (rewrite length_map, tab_length; exact Hlen).
  apply sum_upto_le. intros i Hi. cbv beta.
  assert (Hr : 0 <= nth i refs 0).
  { rewrite Forall_forall in Hrefs. apply Hrefs, nth_In, Hi. }
  destruct gs as [| g0 gs']; [simpl in Hlen; lia |].
  rewrite !(nearest_of_table F _ _ i g0) by lia.
  apply Rmult_le_compat_l; [exact Hr |].
  apply row_min_incl; [destruct hs; [congruence | discriminate] |].
  rewrite map_app. apply incl_appl, incl_refl.
Qed.

(** X18: a site added at the end of the site list leaves both baseline totals
    as they are and, with non-negative referrals, lowers neither improvement
    percentage. *)
Theorem added_site_never_lowers_improvement
    (gp_df hospital_df : dataframe) (site : place)
    (car_speed pt_speed fuel_cost co2_per_mile : R) :
  0 < car_speed -> 0 < pt_speed -> hospital_df <> [] ->
  Forall (fun p => 0 <= Referrals p) gp_df ->
  exists a a',
    Workflow.run_scenario gp_df hospital_df car_speed pt_speed fuel_cost co2_per_mile = Ok a /\
    Workflow.run_scenario gp_df (hospital_df ++ [site]) car_speed pt_speed fuel_cost co2_per_mile
    = Ok a' /\
    Workflow.baseline_total_car a' = Workflow.baseline_total_car a /\
    Workflow.baseline_total_pt a' = Workflow.baseline_total_pt a /\
    Workflow.improvement_car a <= Workflow.improvement_car a' /\
    Workflow.improvement_pt a <= Workflow.improvement_pt a'.
Proof.
  intros Hcar Hpt Hne Hrefs.
  assert (Hne' : hospital_df ++ [site] <> []) by (destruct hospital_df; discriminate).
  destruct (run_scenario_ok gp_df hospital_df car_speed pt_speed fuel_cost co2_per_mile
              Hcar Hpt Hne)
    as (a & Hrun & _ & _ & _ & _ & _ & _ & _ & _ & Htc & Htp & Hbtc & Hbtp & Hic & Hip & _).
  destruct (run_scenario_ok gp_df (hospital_df ++ [site]) car_speed pt_speed fuel_cost
              co2_per_mile Hcar Hpt Hne')
    as (a' & Hrun' & _ & _ & _ & _ & _ & _ & _ & _ & Htc' & Htp' & Hbtc' & Hbtp' & Hic' & Hip' & _).
  assert (Happ : coord_rows (hospital_df ++ [site])
                 = coord_rows hospital_df ++ [[result_latitude site; result_longitude site]])
    by (unfold coord_rows; now rewrite map_app).
  rewrite Happ in *.
  assert (Hh : coord_rows hospital_df <> [])
    by (unfold coord_rows; destruct hospital_df; [congruence | discriminate]).
  assert (Hlg : length (coord_rows gp_df) = length gp_df)
    by (unfold coord_rows; now rewrite length_map).
  assert (Hlen : length (map Referrals gp_df) = length (coord_rows gp_df))
    by (now rewrite length_map, Hlg).
  assert (Hpos : Forall (fun r => 0 <= r) (map Referrals gp_df)).
  { apply Forall_forall. intros r Hr. apply in_map_iff in Hr as (p & <- & Hp).
    rewrite Forall_forall in Hrefs. now apply Hrefs. }
  assert (Ebc : Workflow.baseline_total_car a' = Workflow.baseline_total_car a)
    by (rewrite Hbtc', Hbtc; now apply baseline_total_added_site).
  assert (Ebp : Workflow.baseline_total_pt a' = Workflow.baseline_total_pt a)
    by (rewrite Hbtp', Hbtp; now apply baseline_total_added_site).
  exists a, a'. split; [exact Hrun |]. split; [exact Hrun' |].
  split; [exact Ebc |]. split; [exact Ebp |].
  rewrite Hic, Hic', Hip, Hip', Ebc, Ebp. split; apply improvement_value_antitone.
  - rewrite Htc, Htc'. now apply scenario_total_added_site.
  - rewrite Htp, Htp'. now apply scenario_total_added_site.
Qed.

Lemma added_site_never_lowers_improvement_witness :
  exists a a',
    Workflow.run_scenario
      [Place "GP A" 51.50 (-0.10) 100; Place "GP B" 51.52 (-0.12) 50]
      [Place "Site 1" 51.51 (-0.11) 0] 40 25 (1/5) (1/4) = Ok a /\
    Workflow.run_scenario
      [Place "GP A" 51.50 (-0.10) 100; Place "GP B" 51.52 (-0.12) 50]
      ([Place "Site 1" 51.51 (-0.11) 0] ++ [Place "Proposed Site" 51.52 (-0.12) 0])
      40 25 (1/5) (1/4) = Ok a' /\
    Workflow.improvement_car a <= Workflow.improvement_car a'.
Proof.
  destruct (added_site_never_lowers_improvement
              [Place "GP A" 51.50 (-0.10) 100; Place "GP B" 51.52 (-0.12) 50]
              [Place "Site 1" 51.51 (-0.11) 0] (Place "Proposed Site" 51.52 (-0.12) 0)
              40 25 (1/5) (1/4))
    as (a & a' & Hrun & Hrun' & _ & _ & Hc & _); try lra; try discriminate.
  - repeat constructor; simpl; lra.
  - exists a, a'. split; [exact Hrun |]. split; [exact Hrun' | exact Hc].
Defined.

(** ** Ingestion and site selection *)

(** X19: after cleaning, the Referrals column has the length it had and no
    negative entry: a readable number x becomes max(x, 0), anything else 0. *)
Theorem clean_referrals_nonneg (col : list Workflow.cell) :
  length (Workflow.clean_referrals col) = length col /\
  Forall (fun r => 0 <= r) (Workflow.clean_referrals col) /\
  forall i, (i < length col)%nat ->
    nth i (Workflow.clean_referrals col) 0
    = match nth i col Workflow.Unreadable with
      | Workflow.Numeric x => Rmax x 0
      | Workflow.Unreadable => 0
      end.
Proof.
  unfold Workflow.clean_referrals. rewrite map_map.
  set (f := fun c => if Rltb (Workflow.to_numeric_fillna c) 0
                     then 0 else Workflow.to_numeric_fillna c).
  assert (Hf : forall c, 0 <= f c /\
            f c = match c with Workflow.Numeric x => Rmax x 0 | Workflow.Unreadable => 0 end).
  { intro c. unfold f, Rltb, Rmax. destruct c as [x |]; cbn [Workflow.to_numeric_fillna].
    - destruct (Rlt_dec x 0), (Rle_dec x 0); split; lra.
    - destruct (Rlt_dec 0 0); split; lra. }
  split; [apply length_map |]. split.
  - apply Forall_forall. intros r Hr. apply in_map_iff in Hr as (c & <- & _). apply Hf.
  - intros i Hi.
    rewrite (nth_indep _ 0 (f Workflow.Unreadable)) by now rewrite length_map.
    rewrite (map_nth f col Workflow.Unreadable i). apply Hf.
Qed.

Lemma isin_spec (hospital_names : list string) (p : place) :
  Workflow.isin hospital_names p = true <-> In (Description p) hospital_names.
Proof.
  unfold Workflow.isin. rewrite existsb_exists. split.
  - intros (n & Hn & He). apply String.eqb_eq in He. now subst.
  - intro H. exists (Description p). split; [exact H | apply String.eqb_refl].
Qed.

Lemma filter_partition {A : Type} (f : A -> bool) (l : list A) :
  Permutation l (filter f l ++ filter (fun x => negb (f x)) l).
Proof.
  induction l as [| x l IH]; [constructor |]. cbn [filter].
  destruct (f x); cbn [negb app].
  - now constructor.
  - now apply Permutation_cons_app.
Qed.

(** X20: the selection splits the table: the hospital rows and the practice
    rows together are the rows of the table, each once; a row is a hospital
    row exactly when its Description is a selected name, so no selected site
    is counted as a source of referrals. *)
Theorem selection_partitions_table (df : dataframe) (hospital_names : list string) :
  Permutation df (Workflow.select_hospital_df df hospital_names
                  ++ Workflow.select_gp_df df hospital_names) /\
  (forall p, In p (Workflow.select_hospital_df df hospital_names) <->
             In p df /\ In (Description p) hospital_names) /\
  (forall p, In p (Workflow.select_gp_df df hospital_names) <->
             In p df /\ ~ In (Description p) hospital_names) /\
  sum_list (map Referrals df)
  = sum_list (map Referrals (Workflow.select_hospital_df df hospital_names))
    + sum_list (map Referrals (Workflow.select_gp_df df hospital_names)).
Proof.
  unfold Workflow.select_hospital_df, Workflow.select_gp_df.
  split; [apply filter_partition |]. split; [| split].
  - intro p. rewrite filter_In, isin_spec. reflexivity.
  - intro p. rewrite filter_In, negb_true_iff, <- not_true_iff_false, isin_spec. reflexivity.
  - induction df as [| x df IH]; cbn [filter map]; [unfold sum_list; simpl; lra |].
    destruct (Workflow.isin hospital_names x); cbn [negb map];
      rewrite !sum_list_cons, IH; lra.
Qed.

(** X21: the proposed site is added, as the last row, exactly when the
    postcode is not empty and get_lat_lon gives a latitude and a longitude
    that are both different from 0; a missing or zero coordinate leaves the
    hospital table as it is. *)
Theorem add_proposed_site_cases
    (hospital_df : dataframe) (new_site_postcode : string)
    (get_lat_lon : string -> option R * option R) :
  (new_site_postcode = ""%string ->
   Workflow.add_proposed_site hospital_df new_site_postcode get_lat_lon = hospital_df) /\
  (forall la lo,
     new_site_postcode <> ""%string ->
     get_lat_lon new_site_postcode = (Some la, Some lo) -> la <> 0 -> lo <> 0 ->
     Workflow.add_proposed_site hospital_df new_site_postcode get_lat_lon
     = hospital_df ++ [Place "Proposed Site" la lo 0]) /\
  (fst (get_lat_lon new_site_postcode) = None \/ fst (get_lat_lon new_site_postcode) = Some 0 \/
   snd (get_lat_lon new_site_postcode) = None \/ snd (get_lat_lon new_site_postcode) = Some 0 ->
   Workflow.add_proposed_site hospital_df new_site_postcode get_lat_lon = hospital_df).
Proof.
  unfold Workflow.add_proposed_site. split; [| split].
  - intros ->. reflexivity.
  - intros la lo Hne Hll Hla Hlo.
    destruct (String.eqb_spec new_site_postcode ""); [contradiction |].
    rewrite Hll. unfold Workflow.truthy.
    destruct (Req_dec_T la 0); [contradiction |].
    destruct (Req_dec_T lo 0); [contradiction |]. reflexivity.
  - intro H. destruct (String.eqb new_site_postcode ""); [reflexivity |].
    destruct (get_lat_lon new_site_postcode) as [lat lon]. cbn [fst snd] in H.
    unfold Workflow.truthy.
    destruct lat as [la |], lon as [lo |];
      repeat match goal with |- context [Req_dec_T ?x 0] => destruct (Req_dec_T x 0) end;
      cbn [andb]; try reflexivity.
    exfalso. destruct H as [H | [H | [H | H]]]; try discriminate H;
      injection H as H; contradiction.
Qed.

Lemma add_proposed_site_nonempty
    (hospital_df : dataframe) (new_site_postcode : string)
    (get_lat_lon : string -> option R * option R) :
  hospital_df <> [] ->
  Workflow.add_proposed_site hospital_df new_site_postcode get_lat_lon <> [].
Proof.
  intro Hne. unfold Workflow.add_proposed_site.
  destruct (String.eqb new_site_postcode ""); [exact Hne |].
  destruct (get_lat_lon new_site_postcode) as [lat lon].
  destruct (Workflow.truthy lat && Workflow.truthy lon); [| exact Hne].
  destruct lat, lon; try exact Hne. destruct hospital_df; [congruence | discriminate].
Qed.

(** X22: with no selected name the script stops with its warning and computes
    nothing; with a selection of which at least one name occurs in the table,
    and positive speeds, the site set handed to the engine is not empty and
    the whole scenario returns without an exception, with or without a
    proposed site. *)
Theorem main_workflow_stops_or_returns
    (df : dataframe) (hospital_names : list string) (new_site_postcode : string)
    (get_lat_lon : string -> option R * option R)
    (car_speed pt_speed fuel_cost co2_per_mile : R) :
  Workflow.main_workflow df [] new_site_postcode get_lat_lon
                         car_speed pt_speed fuel_cost co2_per_mile
  = Workflow.Stopped "Select at least one hospital site." /\
  (0 < car_speed -> 0 < pt_speed ->
   (exists p, In p df /\ In (Description p) hospital_names) ->
   exists a,
     Workflow.main_workflow df hospital_names new_site_postcode get_lat_lon
                            car_speed pt_speed fuel_cost co2_per_mile
     = Workflow.Ran (Ok a) /\
     length (Total_Referrals_Assigned (Workflow.summary_table a))
     = length (Workflow.add_proposed_site (Workflow.select_hospital_df df hospital_names)
                                          new_site_postcode get_lat_lon)).
Proof.
  split; [reflexivity |].
  intros Hcar Hpt (p & Hp & Hsel).
  destruct hospital_names as [| n names]; [contradiction |].
  cbn [Workflow.main_workflow].
  set (hospital_df := Workflow.add_proposed_site _ _ _).
  assert (Hne : hospital_df <> []).
  { apply add_proposed_site_nonempty. intro E.
    assert (Hin : In p (Workflow.select_hospital_df df (n :: names))).
    { unfold Workflow.select_hospital_df. apply filter_In. split; [exact Hp |].
      now apply isin_spec. }
    rewrite E in Hin. contradiction. }
  destruct (run_scenario_ok (Workflow.select_gp_df df (n :: names)) hospital_df
              car_speed pt_speed fuel_cost co2_per_mile Hcar Hpt Hne)
    as (a & Hrun & _ & HC & HP & _ & _ & _ & _ & _ & _ & _ & _ & _ & _ & _ & _ & Hsum & _).
  exists a. split; [now rewrite Hrun |].
  assert (Hlh : length hospital_df = length (coord_rows hospital_df))
    by (unfold coord_rows; now rewrite length_map).
  rewrite (summary_of_scenario a _ hospital_df _ _ _ HC HP Hsum).
  - cbn [Total_Referrals_Assigned]. now rewrite length_map, length_seq.
  - rewrite <- Hlh. now apply nonempty_length.
  - exact Hlh.
  - rewrite tab_length. unfold coord_rows. now rewrite length_map.
  - rewrite tab_length. unfold coord_rows. now rewrite length_map.
Qed.

(** ** get_lat_lon: the retry loop *)

Lemma exceptions_S (network : nat -> Geography.response) (a n : nat) :
  exceptions network a (S n)
  = ((if is_exception (network a) then 1 else 0) + exceptions network (S a) n)%nat.
Proof.
  unfold exceptions. cbn [seq map filter]. now destruct (is_exception (network a)).
Qed.

Lemma exceptions_le (network : nat -> Geography.response) (a n : nat) :
  (exceptions network a n <= n)%nat.
Proof.
  unfold exceptions.
  apply Nat.le_trans with (length (map network (seq a n))); [apply filter_length_le |].
  now rewrite length_map, length_seq.
Qed.


Lemma attempts_no_200 (network : nat -> Geography.response) (remaining a : nat)
    (eff : Geography.effects) :
  (forall j, (a <= j < a + remaining)%nat -> is_200 (network j) = false) ->
  Geography.attempts network a remaining eff
  = ((None, None),
     Geography.Effects (Geography.requests eff + remaining)
                       (Geography.slept eff + exceptions network a remaining)).
Proof.
  revert a eff. induction remaining as [| remaining IH]; intros a eff Hall.
  - cbn [Geography.attempts]. unfold exceptions. cbn [seq map filter length].
    rewrite !Nat.add_0_r. now destruct eff.
  - cbn [Geography.attempts].
    assert (Ha : is_200 (network a) = false) by (apply Hall; lia).
    rewrite exceptions_S.
    destruct (network a) as [sc res |] eqn:Ena; cbn [is_200 is_exception] in *.
    + rewrite Ha, IH by (intros j Hj; apply Hall; lia).
      cbn [Geography.requests Geography.slept]. do 2 f_equal; lia.
    + rewrite IH by (intros j Hj; apply Hall; lia).
      cbn [Geography.requests Geography.slept]. do 2 f_equal; lia.
Qed.

Lemma attempts_effects_bounded (network : nat -> Geography.response) (remaining a : nat)
    (eff : Geography.effects) :
  let out := Geography.attempts network a remaining eff in
  (Geography.requests eff <= Geography.requests (snd out)
   <= Geography.requests eff + remaining)%nat /\
  (Geography.slept (snd out) - Geography.slept eff
   <= Geography.requests (snd out) - Geography.requests eff)%nat.
Proof.
  revert a eff. induction remaining as [| remaining IH]; intros a eff; cbn [Geography.attempts].
  - cbn [snd]. lia.
  - destruct (network a) as [sc [[lat lon] |] |].
    + destruct (Z.eqb sc 200); [cbn [snd Geography.requests Geography.slept]; lia |].
      specialize (IH (S a) (Geography.Effects (S (Geography.requests eff)) (Geography.slept eff))).
      cbn [Geography.requests Geography.slept] in IH. cbv zeta in IH. lia.
    + destruct (Z.eqb sc 200); [cbn [snd Geography.requests Geography.slept]; lia |].
      specialize (IH (S a) (Geography.Effects (S (Geography.requests eff)) (Geography.slept eff))).
      cbn [Geography.requests Geography.slept] in IH. cbv zeta in IH. lia.
    + specialize (IH (S a) (Geography.Effects (S (Geography.requests eff))
                                              (S (Geography.slept eff)))).
      cbn [Geography.requests Geography.slept] in IH. cbv zeta in IH. lia.
Qed.

(** X23: get_lat_lon sends at most max(retries, 0) requests and sleeps at
    most once per request; for a postcode that the format check rejects it
    sends none and answers (None, None), and so it does when retries is not
    positive. *)
Theorem get_lat_lon_requests_bounded
    (strip_upper : string -> string) (regex_match : string -> bool)
    (network : nat -> Geography.response) (postcode : string) (retries : Z) :
  let out := Geography.get_lat_lon strip_upper regex_match network postcode retries in
  (Geography.requests (snd out) <= Z.to_nat retries)%nat /\
  (Geography.slept (snd out) <= Geography.requests (snd out))%nat /\
  (regex_match (strip_upper postcode) = false \/ (retries <= 0)%Z ->
   out = ((None, None), Geography.Effects 0 0)).
Proof.
  unfold Geography.get_lat_lon. cbv zeta.
  destruct (regex_match (strip_upper postcode)); cbn [negb].
  - pose proof (attempts_effects_bounded network (Z.to_nat retries) 1 (Geography.Effects 0 0))
      as [Hreq Hslept].
    cbv zeta in Hreq, Hslept. cbn [Geography.requests Geography.slept] in Hreq, Hslept.
    split; [lia |]. split; [lia |].
    intros [H | H]; [discriminate H |].
    replace (Z.to_nat retries) with 0%nat by lia. reflexivity.
  - cbn [snd Geography.requests Geography.slept]. split; [lia |]. split; [lia |]. reflexivity.
Qed.



(** X25: when none of the allowed attempts answers with status 200,
    get_lat_lon gives (None, None) after exactly max(retries, 0) requests,
    having slept one second for each exception. *)
Theorem get_lat_lon_gives_up
    (strip_upper : string -> string) (regex_match : string -> bool)
    (network : nat -> Geography.response) (postcode : string) (retries : Z) :
  regex_match (strip_upper postcode) = true ->
  (forall j, (1 <= j <= Z.to_nat retries)%nat -> is_200 (network j) = false) ->
  Geography.get_lat_lon strip_upper regex_match network postcode retries
  = ((None, None),
     Geography.Effects (Z.to_nat retries) (exceptions network 1 (Z.to_nat retries))).
Proof.
  intros Hfmt Hall. unfold Geography.get_lat_lon. rewrite Hfmt. cbn [negb].
  rewrite attempts_no_200 by (intros j Hj; apply Hall; lia). reflexivity.
Qed.

Lemma get_lat_lon_gives_up_witness :
  Geography.get_lat_lon (fun s => s) Geography.postcode_regex_match
    (fun n => match n with
              | 1%nat => Geography.RequestException
              | _ => Geography.Reply 404 None
              end) "EX1 1AA" 2
  = ((None, None), Geography.Effects 2 1).
Proof.
  rewrite (get_lat_lon_gives_up (fun s => s) Geography.postcode_regex_match _ "EX1 1AA" 2).
  - reflexivity.
  - reflexivity.
  - intros j Hj. destruct j as [| [| j]]; reflexivity.
Defined.

(** ** POSTCODE_REGEX on ASCII strings *)

Lemma upper_char_class (c : ascii) :
  Geography.is_letter (Geography.upper_char c) = Geography.is_letter c /\
  Geography.is_digit (Geography.upper_char c) = Geography.is_digit c /\
  Ascii.eqb (Geography.upper_char c) " " = Ascii.eqb c " " /\
  Ascii.eqb (Geography.upper_char c) "010" = Ascii.eqb c "010".
Proof.
  destruct c as [[] [] [] [] [] [] [] []]; repeat split; reflexivity.
Qed.

Lemma at_end_upper (s : string) :
  Geography.at_end (Geography.upper s) = Geography.at_end s.
Proof.
  destruct s as [| c [| c' s']]; cbn [Geography.upper Geography.at_end]; try reflexivity.
  apply upper_char_class.
Qed.

Lemma inward_upper (s : string) :
  Geography.inward (Geography.upper s) = Geography.inward s.
Proof.
  destruct s as [| d [| l1 [| l2 rest]]]; cbn [Geography.upper Geography.inward];
    try reflexivity.
  rewrite at_end_upper.
  rewrite (proj1 (proj2 (upper_char_class d))).
  rewrite (proj1 (upper_char_class l1)), (proj1 (upper_char_class l2)). reflexivity.
Qed.

Lemma space_inward_upper (s : string) :
  Geography.space_inward (Geography.upper s) = Geography.space_inward s.
Proof.
  unfold Geography.space_inward. rewrite inward_upper.
  destruct s as [| c rest]; cbn [Geography.upper]; [reflexivity |].
  rewrite inward_upper, (proj1 (proj2 (proj2 (upper_char_class c)))). reflexivity.
Qed.

Lemma alnum_space_inward_upper (s : string) :
  Geography.alnum_space_inward (Geography.upper s) = Geography.alnum_space_inward s.
Proof.
  unfold Geography.alnum_space_inward. rewrite space_inward_upper.
  destruct s as [| c rest]; cbn [Geography.upper]; [reflexivity |].
  rewrite space_inward_upper, (proj1 (upper_char_class c)),
    (proj1 (proj2 (upper_char_class c))). reflexivity.
Qed.

Lemma digit_onwards_upper (s : string) :
  Geography.digit_onwards (Geography.upper s) = Geography.digit_onwards s.
Proof.
  destruct s as [| d rest]; cbn [Geography.upper Geography.digit_onwards]; [reflexivity |].
  rewrite alnum_space_inward_upper, (proj1 (proj2 (upper_char_class d))). reflexivity.
Qed.

(** X26: on ASCII strings the format check does not depend on the case of
    the letters: the upper-cased postcode is accepted exactly when the
    postcode is, so [upper()] changes the URL that is requested and not
    whether a request is made. *)
Theorem postcode_regex_ignores_case (s : string) :
  Geography.postcode_regex_match (Geography.upper s) = Geography.postcode_regex_match s.
Proof.
  destruct s as [| l rest]; cbn [Geography.upper Geography.postcode_regex_match];
    [reflexivity |].
  rewrite digit_onwards_upper, (proj1 (upper_char_class l)).
  destruct rest as [| l2 rest2]; cbn [Geography.upper]; [reflexivity |].
  rewrite digit_onwards_upper, (proj1 (upper_char_class l2)). reflexivity.
Qed.

Lemma at_end_length (s : string) :
  Geography.at_end s = true -> (String.length s <= 1)%nat.
Proof.
  destruct s as [| c [| c' s']]; cbn [Geography.at_end String.length]; intro H;
    try lia; discriminate H.
Qed.

Lemma inward_length (s : string) :
  Geography.inward s = true -> (3 <= String.length s <= 4)%nat.
Proof.
  destruct s as [| d [| l1 [| l2 rest]]]; cbn [Geography.inward]; intro H;
    try discriminate H.
  apply andb_true_iff in H as [_ H]. apply at_end_length in H.
  cbn [String.length]. lia.
Qed.

Lemma space_inward_length (s : string) :
  Geography.space_inward s = true -> (3 <= String.length s <= 5)%nat.
Proof.
  unfold Geography.space_inward. intro H. apply orb_true_iff in H as [H | H].
  - apply inward_length in H. lia.
  - destruct s as [| c rest]; [discriminate H |].
    apply andb_true_iff in H as [_ H]. apply inward_length in H.
    cbn [String.length]. lia.
Qed.

Lemma alnum_space_inward_length (s : string) :
  Geography.alnum_space_inward s = true -> (3 <= String.length s <= 6)%nat.
Proof.
  unfold Geography.alnum_space_inward. intro H. apply orb_true_iff in H as [H | H].
  - apply space_inward_length in H. lia.
  - destruct s as [| c rest]; [discriminate H |].
    apply andb_true_iff in H as [_ H]. apply space_inward_length in H.
    cbn [String.length]. lia.
Qed.

Lemma digit_onwards_length (s : string) :
  Geography.digit_onwards s = true -> (4 <= String.length s <= 7)%nat.
Proof.
  destruct s as [| d rest]; cbn [Geography.digit_onwards]; intro H; [discriminate H |].
  apply andb_true_iff in H as [_ H]. apply alnum_space_inward_length in H.
  cbn [String.length]. lia.
Qed.

(** X27: a string that the format check accepts starts with a letter and has
    between 5 and 9 characters, the ninth being a final newline; so the empty
    string and every string of 10 characters or more are rejected without a
    request. *)
Theorem postcode_regex_length (s : string) :
  Geography.postcode_regex_match s = true ->
  (5 <= String.length s <= 9)%nat /\
  exists l rest, s = String l rest /\ Geography.is_letter l = true.
Proof.
  destruct s as [| l rest]; cbn [Geography.postcode_regex_match]; intro H;
    [discriminate H |].
  apply andb_true_iff in H as [Hl H]. split; [| now exists l, rest].
  cbn [String.length]. apply orb_true_iff in H as [H | H].
  - apply digit_onwards_length in H. lia.
  - destruct rest as [| l2 rest2]; [discriminate H |].
    apply andb_true_iff in H as [_ H]. apply digit_onwards_length in H.
    cbn [String.length]. lia.
Qed.

Lemma postcode_regex_length_witness :
  (5 <= String.length "EX1 1AA" <= 9)%nat /\
  exists l rest, "EX1 1AA"%string = String l rest /\ Geography.is_letter l = true.
Proof.
  apply (postcode_regex_length "EX1 1AA"). reflexivity.
Defined.
